(** * AVI to MP4 converter: the conversion job controller

    A shallow embedding of [avi_to_mp4.py]: the encoder registry
    ([test_encoder], [detect_encoders_once], [auto_best_encoder]), the
    probe ([get_file_info]), the progress display ([set_ui_state]), the
    worker ([convert_file]) and the controls ([pause_resume], [cancel]);
    then start-up ([resolve_ffmpeg_paths_once], [ensure_ffmpeg_or_quit],
    the search of [download_and_install_ffmpeg]), the log ([log]), the
    stderr drain ([drain_stderr]), the numbers of the status line
    ([output_kbps]) and the settings ([save_settings], [startup_notice]).

    Conventions.
    - A Python [str] is a [string] (its bytes: only ASCII characters count
      as letters, spaces or digits); a [dict] with string keys is a
      [gmap string _]; the file system is a [gmap string N] from the path
      of a file to its size in bytes.
    - A Python [float] is a rational number ([Q]): rounding, infinities
      and NaN are outside the model.
    - What the outside world answers (exit codes, lines printed by the
      child, the moment the user presses a button) is an explicit input of
      the model, so that every definition computes.
    - [convert_file] is given twice: as a function from one run of the
      outside world to the trace, the outcome and the disk it leaves
      ([convert_file]), and cut into the steps of a thread that shares
      three globals with the other jobs and with the Tk thread
      ([job_step]).  [job_alone_agrees] relates the two. *)

From Stdlib Require Import Ascii String QArith Qminmax Lqa.
From stdpp Require Import gmap strings list fin_maps.

Local Open Scope string_scope.
Local Open Scope list_scope.
Local Set Warnings "-register-all".

(** ** Python string methods used by the program *)

Module Py.

(** [c.lower()] on one character (ASCII letters). *)
Definition lower_ascii (c : ascii) : ascii :=
  let n := Ascii.nat_of_ascii c in
  if ((65 <=? n) && (n <=? 90))%nat then Ascii.ascii_of_nat (n + 32) else c.

(** [s.lower()] *)
Fixpoint lower (s : string) : string :=
  match s with
  | EmptyString => EmptyString
  | String c r => String (lower_ascii c) (lower r)
  end.

(** [s.startswith(p)] *)
Definition startswith (s p : string) : bool := String.prefix p s.

(** [s.endswith(p)] *)
Definition endswith (s p : string) : bool :=
  let n := String.length s in
  let k := String.length p in
  ((k <=? n)%nat && String.eqb (String.substring (n - k) k s) p).

(** Characters removed by [str.strip()] (the ASCII ones). *)
Definition isspace (c : ascii) : bool :=
  let n := Ascii.nat_of_ascii c in
  (((9 <=? n) && (n <=? 13)) || ((28 <=? n) && (n <=? 32)))%nat.

Fixpoint lstrip (s : string) : string :=
  match s with
  | EmptyString => EmptyString
  | String c r => if isspace c then lstrip r else s
  end.

(** [rstrip] drops a character when it is a space and everything after
    it has been dropped. *)
Fixpoint rstrip (s : string) : string :=
  match s with
  | EmptyString => EmptyString
  | String c r =>
      match rstrip r with
      | EmptyString => if isspace c then EmptyString else String c EmptyString
      | r' => String c r'
      end
  end.

(** [s.strip()] *)
Definition strip (s : string) : string := rstrip (lstrip s).

(** [s.split("=", 1)[1]]: what follows the first ["="]; [None] is the
    [IndexError] raised when [s] has no ["="]. *)
Fixpoint after_eq (s : string) : option string :=
  match s with
  | EmptyString => None
  | String c r => if Ascii.eqb c "="%char then Some r else after_eq r
  end.

Definition is_digit (c : ascii) : bool :=
  let n := Ascii.nat_of_ascii c in ((48 <=? n) && (n <=? 57))%nat.

Fixpoint all_digits (s : string) : bool :=
  match s with
  | EmptyString => true
  | String c r => is_digit c && all_digits r
  end.

(** [s.isdigit()]: at least one character, all of them digits. *)
Definition isdigit (s : string) : bool :=
  match s with
  | EmptyString => false
  | _ => all_digits s
  end.

Fixpoint int_acc (acc : N) (s : string) : N :=
  match s with
  | EmptyString => acc
  | String c r => int_acc (10 * acc + (N.of_nat (Ascii.nat_of_ascii c) - 48))%N r
  end.

(** [int(s)] for a string of digits. *)
Definition int (s : string) : N := int_acc 0%N s.

End Py.

(** ** Encoder detection (scan once) *)

(** [ENCODERS] maps an encoder id ("CPU", "AMF", "NVENC", "QSV") to the
    ffmpeg codec name; its value before detection (line 277). *)
Definition ENCODERS_at_import : gmap string string := {["CPU" := "libx264"]}.

(** [test_encoder(enc)]: [run] is the test encode, [run enc] its exit
    code or [None] when [subprocess.run] raises (time-out, missing
    binary). *)
Definition test_encoder (FFMPEG_PATH : option string)
    (run : string → option Z) (enc : string) : bool :=
  match FFMPEG_PATH with
  | None => false
  | Some _ =>
      match run enc with
      | Some rc => (rc =? 0)%Z
      | None => false
      end
  end.

(** [detect_encoders_once()]: the value assigned to [ENCODERS]. *)
Definition detect_encoders_once (FFMPEG_PATH : option string)
    (run : string → option Z) : gmap string string :=
  let encoders : gmap string string := {["CPU" := "libx264"]} in
  let encoders :=
    if test_encoder FFMPEG_PATH run "h264_amf"
    then <["AMF" := "h264_amf"]> encoders else encoders in
  let encoders :=
    if test_encoder FFMPEG_PATH run "h264_nvenc"
    then <["NVENC" := "h264_nvenc"]> encoders else encoders in
  let encoders :=
    if test_encoder FFMPEG_PATH run "h264_qsv"
    then <["QSV" := "h264_qsv"]> encoders else encoders in
  encoders.

(** [pref in ENCODERS] *)
Definition has_key (ENCODERS : gmap string string) (k : string) : bool :=
  bool_decide (is_Some (ENCODERS !! k)).

(** The [for pref in (...)] loop of [auto_best_encoder]. *)
Fixpoint first_available (ENCODERS : gmap string string)
    (prefs : list string) : string :=
  match prefs with
  | [] => "CPU"
  | pref :: rest =>
      if has_key ENCODERS pref then pref else first_available ENCODERS rest
  end.

Definition auto_best_encoder (ENCODERS : gmap string string) : string :=
  first_available ENCODERS ["AMF"; "NVENC"; "QSV"].

(** ** ffprobe *)

(** A value produced by [json.loads].  [JObj] lists the items of a dict. *)
Inductive json :=
| JNull
| JBool (b : bool)
| JNum (q : Q)
| JStr (s : string)
| JArr (items : list json)
| JObj (items : list (string * json)).

(** The outcome of [subprocess.run(cmd, capture_output=True, ...)] on
    ffprobe, followed by [json.loads(r.stdout)]: the call raises, or it
    returns with an exit code and an output that parses ([Some]) or makes
    [json.loads] raise ([None]). *)
Inductive ProbeRun :=
| ProbeRaised
| ProbeExited (returncode : Z) (loads_stdout : option json).

(** The dict returned by [get_file_info]. *)
Record FileInfo := mkFileInfo {
  duration : Q;
  video : gmap string json;
  audio : json
}.

Module Json.

Fixpoint assoc (items : list (string * json)) (k : string) : option json :=
  match items with
  | [] => None
  | (k', v) :: rest => if String.eqb k' k then Some v else assoc rest k
  end.

(** [d.get(k, dflt)]; [None] is the [AttributeError] of a value that is
    not a dict. *)
Definition get (d : json) (k : string) (dflt : json) : option json :=
  match d with
  | JObj items => Some (default dflt (assoc items k))
  | _ => None
  end.

(** [v == s] for a string [s]. *)
Definition eq_str (v : json) (s : string) : bool :=
  match v with
  | JStr t => String.eqb t s
  | _ => false
  end.

(** [bool(v)] *)
Definition truthy (v : json) : bool :=
  match v with
  | JNull => false
  | JBool b => b
  | JNum q => negb (Qeq_bool q 0)
  | JStr s => negb (String.eqb s "")
  | JArr items => match items with [] => false | _ => true end
  | JObj items => match items with [] => false | _ => true end
  end.

Fixpoint chars (s : string) : list json :=
  match s with
  | EmptyString => []
  | String c r => JStr (String c EmptyString) :: chars r
  end.

(** What [for x in v] iterates over; [None] is the [TypeError] of a
    value that is not iterable. *)
Definition iter (v : json) : option (list json) :=
  match v with
  | JArr items => Some items
  | JObj items => Some (JStr <$> items.*1)
  | JStr s => Some (chars s)
  | _ => None
  end.

End Json.

(** What the program takes from the Python library and the platform:
    [float(s)] on a string ([None] is the [ValueError]), the [os.path]
    functions, and the default output folder. *)
Record Platform := mkPlatform {
  py_float : string → option Q;
  path_join : string → string → string;
  path_basename : string → string;
  path_splitext0 : string → string;
  DEFAULT_OUTPUT : string
}.

(** [float(v)]; [None] is the [TypeError] or [ValueError]. *)
Definition to_float (P : Platform) (v : json) : option Q :=
  match v with
  | JNum q => Some q
  | JStr s => py_float P s
  | JBool b => Some (if b then 1%Q else 0%Q)
  | _ => None
  end.

(** One turn of the [for stream in ...] loop of [get_file_info], on the
    pair ([video_info], [audio_codec]). *)
Definition scan_stream (acc : gmap string json * json) (stream : json)
    : option (gmap string json * json) :=
  let '(video_info, audio_codec) := acc in
  codec_type ← Json.get stream "codec_type" JNull;
  if Json.eq_str codec_type "video" && bool_decide (video_info = ∅) then
    codec_name ← Json.get stream "codec_name" (JStr "");
    profile ← Json.get stream "profile" (JStr "");
    pix_fmt ← Json.get stream "pix_fmt" (JStr "");
    Some (<["pix_fmt" := pix_fmt]> (<["profile" := profile]>
            (<["codec_name" := codec_name]> ∅)), audio_codec)
  else if Json.eq_str codec_type "audio" && negb (Json.truthy audio_codec) then
    codec_name ← Json.get stream "codec_name" (JStr "");
    Some (video_info, codec_name)
  else Some acc.

Fixpoint scan_streams (acc : gmap string json * json) (streams : list json)
    : option (gmap string json * json) :=
  match streams with
  | [] => Some acc
  | stream :: rest => acc' ← scan_stream acc stream; scan_streams acc' rest
  end.

(** The body of the [try] of [get_file_info] after [json.loads]; [None]
    when it raises. *)
Definition parse_file_info (P : Platform) (data : json) : option FileInfo :=
  format ← Json.get data "format" (JObj []);
  d ← Json.get format "duration" (JNum 0);
  duration ← to_float P d;
  streams ← Json.get data "streams" (JArr []);
  items ← Json.iter streams;
  '(video_info, audio_codec) ← scan_streams (∅, JStr "") items;
  Some (mkFileInfo duration video_info audio_codec).

(** [{'duration': 0.0, 'video': {}, 'audio': ''}] *)
Definition no_file_info : FileInfo := mkFileInfo 0 ∅ (JStr "").

Definition get_file_info (P : Platform) (r : ProbeRun) : FileInfo :=
  match r with
  | ProbeRaised => no_file_info
  | ProbeExited returncode loads_stdout =>
      if negb (returncode =? 0)%Z then no_file_info
      else default no_file_info (loads_stdout ≫= parse_file_info P)
  end.

Definition ffprobe_cmd (FFPROBE_PATH f : string) : list string :=
  [FFPROBE_PATH; "-v"; "error"; "-show_entries";
   "format=duration:stream=codec_name,codec_type,profile,pix_fmt";
   "-of"; "json"; f].

(** ** The ffmpeg command (lines 609 to 652 of [convert_file]) *)

(** [video.get(k) == s] *)
Definition video_is (video : gmap string json) (k s : string) : bool :=
  match video !! k with
  | Some v => Json.eq_str v s
  | None => false
  end.

(** [chosen = encode_w.get()], replaced by the best encoder when it is not
    a key of [ENCODERS]. *)
Definition choose_encoder (ENCODERS : gmap string string) (encode_w : string)
    : string :=
  if has_key ENCODERS encode_w then encode_w else auto_best_encoder ENCODERS.

Definition safe_copy (video : gmap string json) (chosen : string) : bool :=
  video_is video "codec_name" "h264"
  && video_is video "pix_fmt" "yuv420p"
  && (video_is video "profile" "Baseline"
      || video_is video "profile" "Main"
      || video_is video "profile" "High")
  && String.eqb chosen "CPU".

(** The quality parameters of each encoder. *)
Definition quality_args (enc : string) : list string :=
  if String.eqb enc "libx264" then ["-preset"; "medium"; "-crf"; "18"]
  else if String.eqb enc "h264_amf" then
    ["-rc"; "cqp"; "-qp_i"; "18"; "-qp_p"; "18"; "-qp_b"; "18"]
  else if String.eqb enc "h264_nvenc" then
    ["-rc"; "vbr"; "-cq"; "18"; "-b:v"; "0"]
  else if String.eqb enc "h264_qsv" then ["-global_quality"; "18"]
  else [].

(** The video part; [None] is the [KeyError] of [ENCODERS[chosen]]. *)
Definition video_args (ENCODERS : gmap string string)
    (video : gmap string json) (chosen : string) : option (list string) :=
  if safe_copy video chosen then Some ["-c:v"; "copy"]
  else
    enc ← ENCODERS !! chosen;
    Some (["-c:v"; enc; "-pix_fmt"; "yuv420p"; "-profile:v"; "high";
           "-level"; "4.1"] ++ quality_args enc).

(** The audio part. *)
Definition audio_args (audio : json) : list string :=
  if Json.eq_str audio "aac" || Json.eq_str audio "mp3"
  then ["-c:a"; "copy"]
  else ["-c:a"; "aac"; "-b:a"; "192k"].

Definition build_cmd (FFMPEG_PATH : string) (ENCODERS : gmap string string)
    (input_file out_path : string) (info : FileInfo) (chosen : string)
    : option (list string) :=
  let cmd := [FFMPEG_PATH; "-hide_banner"; "-loglevel"; "error";
              "-y"; "-i"; input_file;
              "-progress"; "pipe:1"; "-nostats"] in
  vargs ← video_args ENCODERS (video info) chosen;
  let cmd := cmd ++ vargs in
  let cmd := cmd ++ audio_args (audio info) in
  Some (cmd ++ ["-movflags"; "+faststart"; out_path]).

(** [cmd] holds the option [flag] followed by the value [value]. *)
Fixpoint has_option (flag value : string) (cmd : list string) : bool :=
  match cmd with
  | a :: (b :: _) as rest =>
      (String.eqb b value && String.eqb a flag) || has_option flag value rest
  | _ => false
  end.

(** ** The progress display ([set_ui_state]) *)

Definition Qlt_bool (a b : Q) : bool := negb (Qle_bool b a).

(** Python's [min(a, b)] and [max(a, b)]: the first argument is kept
    unless the second is strictly smaller (larger). *)
Definition py_min (a b : Q) : Q := if Qlt_bool b a then b else a.
Definition py_max (a b : Q) : Q := if Qlt_bool a b then b else a.

(** The text of the status label.  [StProgress pct] stands for the line
    [f"{pct:5.1f}% | ETA {eta:5.1f}s | {kbps:,.0f} KB/s"]. *)
Inductive Status :=
| StIdle | StWorking | StDone | StPaused | StCancelled
| StProgress (pct : Q).

Record Widgets := mkWidgets {
  status_label : Status;
  progress_bar : Q;
  pause_btn : string
}.

(** [set_ui_state(status, progress, pause_btn_text)] on the widgets. *)
Definition set_ui_state (status : option Status) (progress : option Q)
    (pause_btn_text : option string) (w : Widgets) : Widgets :=
  let w := match status with
           | Some s => mkWidgets s (progress_bar w) (pause_btn w)
           | None => w
           end in
  let w := match progress with
           | Some p => mkWidgets (status_label w) (py_max 0 (py_min 100 p)) (pause_btn w)
           | None => w
           end in
  match pause_btn_text with
  | Some t => mkWidgets (status_label w) (progress_bar w) t
  | None => w
  end.

(** [set_ui_state] also sets [pause_event] when the button text becomes
    "Pause". *)
Definition sets_pause_event (pause_btn_text : option string) : bool :=
  match pause_btn_text with
  | Some t => String.eqb t "Pause"
  | None => false
  end.

(** ** What a job does, as a trace *)

(** A call posted to the Tk loop with [ui(fn, ...)] or [root.after]. *)
Inductive UiCall :=
| UiLog (msg : string)
| UiStartupNotice
| UiSetState (status : option Status) (progress : option Q)
    (pause_btn_text : option string)
| UiSetEncoder (chosen : string)
| UiSaveSettings.

Inductive Action :=
| ClearCancel                       (* cancel_event.clear() *)
| SetPause                          (* pause_event.set() *)
| Makedirs (out_dir : string)
| RunProbe (cmd : list string)      (* subprocess.run on ffprobe *)
| Popen (cmd : list string)         (* subprocess.Popen on ffmpeg *)
| Terminate                         (* current_process.terminate() and wait(timeout=2) *)
| Kill                              (* current_process.kill() *)
| Wait                              (* current_process.wait() *)
| Remove (path : string)            (* os.remove(path) *)
| Ui (call : UiCall)                (* ui(...) *)
| UiAfter (ms : N) (call : UiCall)  (* root.after(ms, ...) *).

(** The [return] (or the place) at which [convert_file] stops. *)
Inductive Outcome :=
| ToolsMissing        (* line 579 *)
| SkippedNotAvi       (* line 583 *)
| SkippedMissing      (* line 586 *)
| Uncaught            (* an exception leaves convert_file *)
| InspectionFailed    (* line 604 *)
| LaunchFailed        (* line 668 *)
| CancelledInLoop     (* line 715 *)
| PausedForever       (* line 717: pause_event is never set again *)
| CancelledAfterLoop  (* line 749 *)
| FailedExit          (* line 761 *)
| FailedOutput        (* line 766 *)
| Completed           (* line 772 *).

Definition is_cancelled (o : Outcome) : bool :=
  match o with CancelledInLoop | CancelledAfterLoop => true | _ => false end.

Definition is_failed_run (o : Outcome) : bool :=
  match o with FailedExit | FailedOutput => true | _ => false end.

(** ** The event loop (lines 693 to 740) *)

(** One turn of [for raw in current_process.stdout], as the job meets it:
    a line, with the state of [cancel_event] when line 695 tests it and
    whether [pause_event.wait()] at line 717 ever returns; or the
    exception raised by the read. *)
Inductive Tick :=
| TLine (raw : string) (cancel_is_set : bool) (pause_released : bool)
| TReadError (e : string).

(** How the loop is left. *)
Inductive LoopExit :=
| ExitEof                  (* the child closed its output *)
| ExitCancel               (* line 695 saw cancel_event *)
| ExitPaused               (* line 717 never returns *)
| ExitRaised (e : string)  (* an exception, caught at line 738 *).

Definition newline : string := String (Ascii.ascii_of_nat 10) EmptyString.

(** [pct] of line 726. *)
Definition percent (out_time duration : Q) : Q :=
  if Qeq_bool duration 0 then 0%Q else ((out_time / duration) * 100)%Q.

(** [out_time] of line 725. *)
Definition out_time_of (val : string) : Q :=
  (inject_Z (Z.of_N (Py.int val)) / 1000000)%Q.

(** Lines 719 to 734 on one line: the calls posted, or [None] with the
    [IndexError] of line 721. *)
Definition process_line (duration : Q) (raw : string) : option (list Action) :=
  let line := Py.strip raw in
  if Py.startswith line "out_time_ms" then
    v ← Py.after_eq line;
    let val := Py.strip v in
    if negb (Py.isdigit val) then Some []
    else
      let out_time := out_time_of val in
      let pct := percent out_time duration in
      Some [Ui (UiSetState None (Some pct) None);
            Ui (UiSetState (Some (StProgress pct)) None None)]
  else Some [].

Fixpoint event_loop (duration : Q) (stdout : list Tick)
    : LoopExit * list Action :=
  match stdout with
  | [] => (ExitEof, [])
  | TReadError e :: _ => (ExitRaised e, [])
  | TLine raw cancel_is_set pause_released :: rest =>
      if cancel_is_set then (ExitCancel, [])
      else if negb pause_released then (ExitPaused, [])
      else
        match process_line duration raw with
        | None => (ExitRaised "list index out of range", [])
        | Some calls =>
            let '(e, t) := event_loop duration rest in (e, calls ++ t)
        end
  end.

(** ** The conversion worker ([convert_file]) *)

(** The module-level state read by [convert_file]. *)
Record Globals := mkGlobals {
  FFMPEG_PATH : option string;
  FFPROBE_PATH : option string;
  ENCODERS : gmap string string;
  dir_out : string;            (* dir_out.get() *)
  encode_w : string            (* encode_w.get() *)
}.

(** What the outside world does during one run of [convert_file]. *)
Record Run := mkRun {
  files : gmap string N;       (* the files on disk at the start, with their sizes *)
  makedirs_ok : bool;          (* os.makedirs does not raise *)
  probe : ProbeRun;            (* the run of ffprobe *)
  popen_error : option string; (* the exception raised by Popen, if any *)
  stdout : list Tick;          (* what the loop reads, turn by turn *)
  wait_rc : Z;                 (* the result of current_process.wait() at line 736 *)
  cancel_after : bool;         (* cancel_event.is_set() at line 742 *)
  terminate_ok : bool;         (* terminate() and wait(timeout=2) do not raise *)
  child_wrote : option N;      (* the size of the file the child has written at out_path
                                  when the job looks at it, [None] if it wrote none *)
  remove_ok : bool;            (* os.remove does not raise *)
  stderr_tail : list string    (* the last lines kept by drain_stderr *)
}.

(** What a run of [convert_file] leaves. *)
Record Result := mkResult {
  outcome : Outcome;
  trace : list Action;
  disk : gmap string N
}.

(** [os.path.exists(p)] *)
Definition path_exists (fs : gmap string N) (p : string) : bool :=
  bool_decide (is_Some (fs !! p)).

(** [os.path.getsize(p)] of an existing file. *)
Definition getsize (fs : gmap string N) (p : string) : N :=
  default 0%N (fs !! p).

(** [out_path] of line 594. *)
Definition out_path_of (P : Platform) (G : Globals) (input_file : string)
    : string :=
  let out_dir := if String.eqb (dir_out G) "" then DEFAULT_OUTPUT P else dir_out G in
  path_join P out_dir (path_splitext0 P (path_basename P input_file) +:+ ".mp4").

(** The disk once the child has run. *)
Definition after_child (W : Run) (out_path : string) : gmap string N :=
  match child_wrote W with
  | Some size => <[out_path := size]> (files W)
  | None => files W
  end.

Definition reset_ui : UiCall := UiSetState (Some StIdle) (Some 0%Q) (Some "Pause").

(** Lines 696 to 715: the cancellation seen by the loop. *)
Definition cancel_in_loop (W : Run) (out_path : string) (t : list Action)
    : Result :=
  let t := t ++ Terminate :: (if terminate_ok W then [] else [Kill]) in
  let fs := after_child W out_path in
  if path_exists fs out_path then
    if remove_ok W then
      mkResult CancelledInLoop
        (t ++ [Remove out_path;
               Ui (UiLog "❌ Cancelled (partial output deleted)"); Ui reset_ui])
        (delete out_path fs)
    else
      mkResult CancelledInLoop
        (t ++ [Remove out_path;
               Ui (UiLog "❌ Cancelled (could not delete output)"); Ui reset_ui])
        fs
  else
    mkResult CancelledInLoop (t ++ [Ui (UiLog "❌ Cancelled"); Ui reset_ui]) fs.

(** Lines 742 to 772: after the loop, with the exit code [rc]. *)
Definition after_loop (W : Run) (out_path : string) (rc : Z) (t : list Action)
    : Result :=
  let fs := after_child W out_path in
  if cancel_after W then
    if path_exists fs out_path then
      mkResult CancelledAfterLoop (t ++ [Remove out_path; Ui reset_ui])
        (if remove_ok W then delete out_path fs else fs)
    else mkResult CancelledAfterLoop (t ++ [Ui reset_ui]) fs
  else if negb (rc =? 0)%Z then
    let t := t ++ [Ui (UiLog "❌ ffmpeg failed")] in
    let t := match stderr_tail W with
             | [] => t
             | tail => t ++ [Ui (UiLog ("Last stderr:" +:+ newline
                                         +:+ String.concat newline tail))]
             end in
    if path_exists fs out_path && (getsize fs out_path =? 0)%N then
      mkResult FailedExit (t ++ [Remove out_path; Ui reset_ui])
        (if remove_ok W then delete out_path fs else fs)
    else mkResult FailedExit (t ++ [Ui reset_ui]) fs
  else if negb (path_exists fs out_path && (0 <? getsize fs out_path)%N) then
    mkResult FailedOutput (t ++ [Ui (UiLog "❌ Output missing/empty"); Ui reset_ui]) fs
  else
    mkResult Completed
      (t ++ [Ui (UiSetState (Some StDone) (Some 100%Q) None);
             Ui (UiLog ("✅ Output: " +:+ out_path));
             UiAfter 800 reset_ui])
      fs.

(** Lines 670 to 772: the job once ffmpeg runs. *)
Definition supervise (W : Run) (out_path : string) (duration : Q)
    (t : list Action) : Result :=
  let '(exit, calls) := event_loop duration (stdout W) in
  let t := t ++ calls in
  match exit with
  | ExitCancel => cancel_in_loop W out_path t
  | ExitPaused => mkResult PausedForever t (after_child W out_path)
  | ExitEof => after_loop W out_path (wait_rc W) (t ++ [Wait])
  | ExitRaised e =>
      after_loop W out_path (-1)
        (t ++ [Ui (UiLog ("❌ Progress read error: " +:+ e))])
  end.

Definition convert_file (P : Platform) (G : Globals) (input_file : string)
    (W : Run) : Result :=
  match FFMPEG_PATH G, FFPROBE_PATH G with
  | Some ffmpeg, Some ffprobe =>
      if negb (Py.endswith (Py.lower input_file) ".avi") then
        mkResult SkippedNotAvi
          [Ui (UiLog ("Skipped (not AVI): " +:+ input_file))] (files W)
      else if negb (path_exists (files W) input_file) then
        mkResult SkippedMissing
          [Ui (UiLog ("Missing file: " +:+ input_file))] (files W)
      else
        let t := [ClearCancel; SetPause] in
        let out_dir :=
          if String.eqb (dir_out G) "" then DEFAULT_OUTPUT P else dir_out G in
        let t := t ++ [Makedirs out_dir] in
        if negb (makedirs_ok W) then mkResult Uncaught t (files W)
        else
          let out_path := out_path_of P G input_file in
          let t := t ++ [RunProbe (ffprobe_cmd ffprobe input_file)] in
          let file_info := get_file_info P (probe W) in
          if Qeq_bool (duration file_info) 0 then
            mkResult InspectionFailed
              (t ++ [Ui (UiLog "❌ Could not read file info")]) (files W)
          else
            let t := t ++ [Ui (UiLog (newline +:+ "Input: "
                                       +:+ path_basename P input_file));
                           Ui (UiSetState (Some StWorking) None None)] in
            let chosen := choose_encoder (ENCODERS G) (encode_w G) in
            let t := if has_key (ENCODERS G) (encode_w G) then t
                     else t ++ [Ui (UiLog "⚠️ Encoder unavailable; switching.");
                                Ui (UiSetEncoder chosen); Ui UiSaveSettings] in
            match build_cmd ffmpeg (ENCODERS G) input_file out_path
                    file_info chosen with
            | None => mkResult Uncaught t (files W)
            | Some cmd =>
                let t := t ++ [Ui (UiLog
                                 (if safe_copy (video file_info) chosen
                                  then "Video: stream copy"
                                  else "Video: " +:+ chosen))] in
                let t := t ++ [Popen cmd] in
                match popen_error W with
                | Some e =>
                    mkResult LaunchFailed
                      (t ++ [Ui (UiLog ("❌ ffmpeg start failed: " +:+ e));
                             Ui reset_ui])
                      (files W)
                | None => supervise W out_path (duration file_info) t
                end
            end
  | _, _ =>
      mkResult ToolsMissing
        [Ui (UiLog "❌ FFmpeg/FFprobe not found."); Ui UiStartupNotice]
        (files W)
  end.

(** How many times the job has started ffmpeg, and ffprobe. *)
Definition is_popen (a : Action) : bool :=
  match a with Popen _ => true | _ => false end.

Definition is_run_probe (a : Action) : bool :=
  match a with RunProbe _ => true | _ => false end.

Definition launch_count (t : list Action) : nat :=
  length (List.filter is_popen t).

Definition probe_count (t : list Action) : nat :=
  length (List.filter is_run_probe t).

(** ** Threads: the shared controls and the jobs that use them

    [current_process], [pause_event] and [cancel_event] are module
    globals (lines 376 to 379).  Every job is a thread running
    [convert_file] ([start_conversion]); the buttons run [pause_resume]
    and [cancel] on the Tk thread, which also runs the calls posted with
    [ui(...)].  A thread is interleaved with the others between two
    accesses to the shared objects, so a job is cut into steps at these
    accesses; a function of the Tk thread runs in one step.  Of the calls
    a job posts, those to [set_ui_state] are kept (it sets [pause_event]);
    the file system and the log are those of [convert_file] above. *)

(** A child process is named by its rank among the children started. *)
Inductive Actor := ByJob (j : nat) | ByTk.

Inductive ProcOp :=
| OpDrain        (* line 670: its stderr is handed to drain_stderr *)
| OpTerminate    (* lines 697 to 701 *)
| OpWait         (* line 736 *)
| OpStop         (* send_signal(SIGSTOP) *)
| OpCont         (* send_signal(SIGCONT) *).

Record Shared := mkShared {
  current_process : option nat;
  pause_event : bool;                (* set: jobs run; cleared: jobs wait *)
  cancel_event : bool;
  spawned : nat;                     (* children started so far *)
  ops : list (Actor * nat * ProcOp); (* what was done to which child, oldest first *)
  posted : list (nat * UiCall);      (* the set_ui_state calls posted by each job, oldest first *)
  ran : list nat;                    (* the ranks of the posted calls already run *)
  widgets : Widgets
}.

(** Where a job thread stands in [convert_file]. *)
Inductive Pc :=
| PcClear                        (* line 588 *)
| PcSetPause                     (* line 589 *)
| PcProbe                        (* lines 591 to 607 *)
| PcPopen                        (* lines 609 to 668 *)
| PcDrain                        (* line 670 *)
| PcFor                          (* line 694: current_process.stdout *)
| PcRead                         (* line 694: the next line *)
| PcCancelCheck (raw : string)   (* line 695 *)
| PcTerminate                    (* lines 696 to 715 *)
| PcPauseWait (raw : string)     (* line 717 *)
| PcLine (raw : string)          (* lines 719 to 734 *)
| PcWait                         (* line 736 *)
| PcFinalCheck (rc : Z)          (* lines 742 to 772 *)
| PcReturned (o : Outcome).

Record Job := mkJob {
  pc : Pc;
  job_duration : Q;
  child : option nat;      (* the child started by this job *)
  reading : option nat     (* the child whose output its loop reads *)
}.

(** What a read of the child's output gives. *)
Inductive ReadResult :=
| GotLine (raw : string)
| GotEof
| GotError (e : string).

(** What the outside world answers to the step a job takes. *)
Record Answer := mkAnswer {
  ans_duration : Q;          (* the duration found by get_file_info *)
  ans_raises : bool;         (* an exception leaves convert_file: os.makedirs at
                                line 592, ENCODERS[chosen] at line 633 *)
  ans_popen_error : option string;
  ans_read : ReadResult;
  ans_rc : Z;                (* the exit code given by wait() *)
  ans_output_ok : bool       (* the output exists and is not empty *)
}.

Record Sys := mkSys {
  shared : Shared;
  jobs : list Job
}.

(** The calls to [set_ui_state] among the actions [t]. *)
Definition ui_calls (t : list Action) : list UiCall :=
  omap (λ a, match a with
             | Ui (UiSetState s p b) => Some (UiSetState s p b)
             | _ => None
             end) t.

Definition post (j : nat) (calls : list UiCall) (s : Shared) : Shared :=
  mkShared (current_process s) (pause_event s) (cancel_event s) (spawned s)
    (ops s) (posted s ++ ((λ c, (j, c)) <$> calls)) (ran s) (widgets s).

Definition set_cancel_event (b : bool) (s : Shared) : Shared :=
  mkShared (current_process s) (pause_event s) b (spawned s)
    (ops s) (posted s) (ran s) (widgets s).

Definition set_pause_event (b : bool) (s : Shared) : Shared :=
  mkShared (current_process s) b (cancel_event s) (spawned s)
    (ops s) (posted s) (ran s) (widgets s).

Definition set_widgets (w : Widgets) (s : Shared) : Shared :=
  mkShared (current_process s) (pause_event s) (cancel_event s) (spawned s)
    (ops s) (posted s) (ran s) w.

(** [current_process = subprocess.Popen(...)] *)
Definition spawn (s : Shared) : Shared :=
  mkShared (Some (spawned s)) (pause_event s) (cancel_event s) (S (spawned s))
    (ops s) (posted s) (ran s) (widgets s).

(** [current_process.<op>(...)]: on the child the global refers to now. *)
Definition on_current (who : Actor) (op : ProcOp) (s : Shared) : Shared :=
  match current_process s with
  | Some p =>
      mkShared (current_process s) (pause_event s) (cancel_event s) (spawned s)
        (ops s ++ [(who, p, op)]) (posted s) (ran s) (widgets s)
  | None => s
  end.

Definition at_pc (b : Job) (p : Pc) : Job :=
  mkJob p (job_duration b) (child b) (reading b).

(** One step of job [j], standing at [pc b]; [None] when the thread is
    blocked or has returned. *)
Definition job_step (j : nat) (a : Answer) (s : Shared) (b : Job)
    : option (Shared * Job) :=
  match pc b with
  | PcClear => Some (set_cancel_event false s, at_pc b PcSetPause)
  | PcSetPause => Some (set_pause_event true s, at_pc b PcProbe)
  | PcProbe =>
      if ans_raises a then Some (s, at_pc b (PcReturned Uncaught))
      else if Qeq_bool (ans_duration a) 0 then
        Some (s, at_pc b (PcReturned InspectionFailed))
      else
        Some (post j [UiSetState (Some StWorking) None None] s,
              mkJob PcPopen (ans_duration a) (child b) (reading b))
  | PcPopen =>
      if ans_raises a then Some (s, at_pc b (PcReturned Uncaught))
      else
        match ans_popen_error a with
        | Some e => Some (post j [reset_ui] s, at_pc b (PcReturned LaunchFailed))
        | None =>
            Some (spawn s,
                  mkJob PcDrain (job_duration b) (Some (spawned s)) (reading b))
        end
  | PcDrain => Some (on_current (ByJob j) OpDrain s, at_pc b PcFor)
  | PcFor => Some (s, mkJob PcRead (job_duration b) (child b) (current_process s))
  | PcRead =>
      match ans_read a with
      | GotLine raw => Some (s, at_pc b (PcCancelCheck raw))
      | GotEof => Some (s, at_pc b PcWait)
      | GotError e => Some (s, at_pc b (PcFinalCheck (-1)))
      end
  | PcCancelCheck raw =>
      if cancel_event s then Some (s, at_pc b PcTerminate)
      else Some (s, at_pc b (PcPauseWait raw))
  | PcTerminate =>
      Some (post j [reset_ui] (on_current (ByJob j) OpTerminate s),
            at_pc b (PcReturned CancelledInLoop))
  | PcPauseWait raw =>
      if pause_event s then Some (s, at_pc b (PcLine raw)) else None
  | PcLine raw =>
      match process_line (job_duration b) raw with
      | Some calls => Some (post j (ui_calls calls) s, at_pc b PcRead)
      | None => Some (s, at_pc b (PcFinalCheck (-1)))
      end
  | PcWait => Some (on_current (ByJob j) OpWait s, at_pc b (PcFinalCheck (ans_rc a)))
  | PcFinalCheck rc =>
      if cancel_event s then
        Some (post j [reset_ui] s, at_pc b (PcReturned CancelledAfterLoop))
      else if negb (rc =? 0)%Z then
        Some (post j [reset_ui] s, at_pc b (PcReturned FailedExit))
      else if negb (ans_output_ok a) then
        Some (post j [reset_ui] s, at_pc b (PcReturned FailedOutput))
      else
        Some (post j [UiSetState (Some StDone) (Some 100%Q) None; reset_ui] s,
              at_pc b (PcReturned Completed))
  | PcReturned _ => None
  end.

(** [set_ui_state(...)] run by the Tk thread: the widgets, and
    [pause_event] when the button text becomes "Pause". *)
Definition tk_set_ui_state (status : option Status) (progress : option Q)
    (pause_btn_text : option string) (s : Shared) : Shared :=
  let s := set_widgets (set_ui_state status progress pause_btn_text (widgets s)) s in
  if sets_pause_event pause_btn_text then set_pause_event true s else s.

(** [pause_resume()] *)
Definition pause_resume (s : Shared) : Shared :=
  if pause_event s then
    let s := set_pause_event false s in
    let s := on_current ByTk OpStop s in
    tk_set_ui_state (Some StPaused) None (Some "Resume") s
  else
    let s := set_pause_event true s in
    let s := on_current ByTk OpCont s in
    tk_set_ui_state None None (Some "Pause") s.

(** [cancel()] *)
Definition cancel (s : Shared) : Shared :=
  let s := set_cancel_event true s in
  tk_set_ui_state (Some StCancelled) (Some 0%Q) None s.

(** The Tk thread runs a posted call. *)
Definition run_call (c : UiCall) (s : Shared) : Shared :=
  match c with
  | UiSetState status progress pause_btn_text =>
      tk_set_ui_state status progress pause_btn_text s
  | _ => s
  end.

Definition mark_ran (k : nat) (s : Shared) : Shared :=
  mkShared (current_process s) (pause_event s) (cancel_event s) (spawned s)
    (ops s) (posted s) (k :: ran s) (widgets s).

Inductive Label :=
| Start                          (* start_conversion(f): a thread at line 588 *)
| Step (j : nat) (a : Answer)    (* job j takes its next step *)
| PressPause                     (* the Pause/Resume button *)
| PressCancel                    (* the Cancel button *)
| TkRun (k : nat)                (* Tk runs the posted call of rank k *).

Definition new_job : Job := mkJob PcClear 0 None None.

Definition step (l : Label) (y : Sys) : option Sys :=
  match l with
  | Start => Some (mkSys (shared y) (jobs y ++ [new_job]))
  | Step j a =>
      b ← jobs y !! j;
      '(s', b') ← job_step j a (shared y) b;
      Some (mkSys s' (<[j := b']> (jobs y)))
  | PressPause => Some (mkSys (pause_resume (shared y)) (jobs y))
  | PressCancel => Some (mkSys (cancel (shared y)) (jobs y))
  | TkRun k =>
      if bool_decide (k ∈ ran (shared y)) then None
      else
        '(_, c) ← posted (shared y) !! k;
        Some (mkSys (mark_ran k (run_call c (shared y))) (jobs y))
  end.

Fixpoint run (ls : list Label) (y : Sys) : option Sys :=
  match ls with
  | [] => Some y
  | l :: rest => y' ← step l y; run rest y'
  end.

(** The program once the window is up: no job, [pause_event] set. *)
Definition init : Sys :=
  mkSys (mkShared None true false 0 [] [] [] (mkWidgets StIdle 0 "Pause")) [].

(** A job has returned. *)
Definition returned (b : Job) : bool :=
  match pc b with PcReturned _ => true | _ => false end.


(** The calls posted by lines 727 and 734: the reports of progress. *)
Definition is_progress_report (c : UiCall) : bool :=
  match c with
  | UiSetState None (Some _) None => true
  | UiSetState (Some (StProgress _)) None None => true
  | _ => false
  end.

Definition progress_reports (j : nat) (s : Shared) : list UiCall :=
  omap (λ jc, if (fst jc =? j)%nat && is_progress_report (snd jc)
              then Some (snd jc) else None) (posted s).


(** ** Notions used in the statements *)


(** The exit code of the child as the job gets it at line 736: the loop
    has read the output to its end and [wait()] has returned. *)
Definition child_exit (W : Run) (duration : Q) : option Z :=
  match fst (event_loop duration (stdout W)) with
  | ExitEof => Some (wait_rc W)
  | _ => None
  end.

(** [cancel_event] was set at none of the tests of lines 695 and 742. *)
Definition never_cancelled (W : Run) : Prop :=
  cancel_after W = false
  ∧ Forall (λ t, match t with
                 | TLine _ cancel_is_set _ => cancel_is_set = false
                 | TReadError _ => True
                 end) (stdout W).

(** A line of the log that reports a failure. *)
Definition is_failure_msg (msg : string) : bool := Py.startswith msg "❌".

(** The job got as far as the event loop. *)
Definition reached_running (o : Outcome) : bool :=
  match o with
  | ToolsMissing | SkippedNotAvi | SkippedMissing | Uncaught
  | InspectionFailed | LaunchFailed => false
  | _ => true
  end.

(** Both tools were found at start-up ([ensure_ffmpeg_or_quit] leaves the
    program otherwise). *)
Definition tools_resolved (G : Globals) : Prop :=
  is_Some (FFMPEG_PATH G) ∧ is_Some (FFPROBE_PATH G).

(** The probe is unusable: [subprocess.run] raised or ffprobe exited with a
    code other than zero, or its output is malformed ([json.loads] or the
    reading of the parsed value raised). *)
Definition probe_failed (P : Platform) (r : ProbeRun) : Prop :=
  match r with
  | ProbeRaised => True
  | ProbeExited returncode loads_stdout =>
      returncode ≠ 0%Z ∨ loads_stdout ≫= parse_file_info P = None
  end.


(** The job has seen [cancel_event] set at line 695, or has returned. *)
Definition cancel_observed (p : Pc) : bool :=
  match p with
  | PcTerminate | PcReturned _ => true
  | _ => false
  end.



(** What a read gives, for a turn of the loop. *)
Definition read_of (t : Tick) : ReadResult :=
  match t with
  | TLine raw _ _ => GotLine raw
  | TReadError e => GotError e
  end.

(** The answers to the steps of a job, read from a run of [convert_file]. *)
Definition answer_of (P : Platform) (G : Globals) (input_file : string)
    (W : Run) (p : Pc) (read : ReadResult) : Answer :=
  let info := get_file_info P (probe W) in
  let out_path := out_path_of P G input_file in
  let fs := after_child W out_path in
  mkAnswer (duration info)
    (match p with
     | PcProbe => negb (makedirs_ok W)
     | PcPopen =>
         match video_args (ENCODERS G) (video info)
                 (choose_encoder (ENCODERS G) (encode_w G)) with
         | None => true
         | Some _ => false
         end
     | _ => false
     end)
    (popen_error W) read (wait_rc W)
    (path_exists fs out_path && (0 <? getsize fs out_path)%N).

(** Job 0 runs alone for at most [fuel] steps, reading [ticks]. *)
Fixpoint drive (fuel : nat) (ans : Pc → ReadResult → Answer)
    (ticks : list Tick) (y : Sys) : option Sys :=
  match fuel with
  | O => Some y
  | S fuel =>
      b ← jobs y !! 0;
      match pc b, ticks with
      | PcReturned _, _ => Some y
      | PcRead, t :: rest =>
          y' ← step (Step 0 (ans PcRead (read_of t))) y; drive fuel ans rest y'
      | p, _ => y' ← step (Step 0 (ans p GotEof)) y; drive fuel ans ticks y'
      end
  end.

(** No turn of the loop sees [cancel_event] set or waits for ever. *)
Definition quiet (ticks : list Tick) : Prop :=
  Forall (λ t, match t with
               | TLine _ cancel_is_set pause_released =>
                   cancel_is_set = false ∧ pause_released = true
               | TReadError _ => True
               end) ticks.

(** The outcome of job 0, once it has returned. *)
Definition outcome_of_job (y : Sys) : option Outcome :=
  b ← jobs y !! 0;
  match pc b with PcReturned o => Some o | _ => None end.

(** ** A sample platform and sample runs *)

Module Sample.

Fixpoint contains (c : ascii) (s : string) : bool :=
  match s with
  | EmptyString => false
  | String a r => Ascii.eqb a c || contains c r
  end.

(** [os.path.basename] with "/" as the separator. *)
Fixpoint basename (s : string) : string :=
  match s with
  | EmptyString => EmptyString
  | String a r => if contains "/" s then basename r else s
  end.

(** [os.path.splitext(s)[0]]: [s] without its last extension. *)
Fixpoint splitext0 (s : string) : string :=
  match s with
  | EmptyString => EmptyString
  | String a r =>
      if Ascii.eqb a "." && negb (contains "." r) then EmptyString
      else String a (splitext0 r)
  end.

Fixpoint before_dot (s : string) : string :=
  match s with
  | EmptyString => EmptyString
  | String a r => if Ascii.eqb a "." then EmptyString else String a (before_dot r)
  end.

Fixpoint after_dot (s : string) : string :=
  match s with
  | EmptyString => EmptyString
  | String a r => if Ascii.eqb a "." then r else after_dot r
  end.

(** [float(s)] on the decimal numbers [digits], [digits.digits] and
    their negations; every other string is refused. *)
Definition float (s : string) : option Q :=
  let '(neg, body) := match s with
                      | String "-" r => (true, r)
                      | _ => (false, s)
                      end in
  let whole := before_dot body in
  let frac := after_dot body in
  if Py.isdigit whole && Py.all_digits frac then
    let q := (inject_Z (Z.of_N (Py.int (whole +:+ frac)))
              / inject_Z (10 ^ Z.of_nat (String.length frac)))%Q in
    Some (if neg then (- q)%Q else q)
  else None.

Definition platform : Platform :=
  mkPlatform float (λ d f, d +:+ "/" +:+ f) basename splitext0 "Downloads".

(** Both tools found, no hardware encoder, the "CPU" encoder selected. *)
Definition globals : Globals :=
  mkGlobals (Some "ffmpeg.exe") (Some "ffprobe.exe")
    (detect_encoders_once (Some "ffmpeg.exe") (λ _, Some 1%Z)) "out" "CPU".

(** What ffprobe prints for a file of the given duration, with an h264
    video stream and an mp3 audio stream. *)
Definition probed (duration : string) : json :=
  JObj [("streams",
         JArr [JObj [("codec_name", JStr "h264"); ("profile", JStr "High");
                     ("codec_type", JStr "video"); ("pix_fmt", JStr "yuv420p")];
               JObj [("codec_name", JStr "mp3"); ("codec_type", JStr "audio")]]);
        ("format", JObj [("duration", JStr duration)])].

(** A run on "movie.avi": the probe result, the lines read, the exit
    code, the state of [cancel_event] after the loop and the size of the
    file written by the child are given. *)
Definition a_run (probe : ProbeRun) (stdout : list Tick) (rc : Z)
    (cancel_after : bool) (child_wrote : option N) : Run :=
  mkRun {["movie.avi" := 1000%N]} true probe None stdout rc cancel_after
    true child_wrote true [].

(** A progress line at 60 seconds, read while no button is pressed. *)
Definition half_way : Tick := TLine "out_time_ms=60000000" false true.

(** The answers to a job whose file lasts 120 seconds and whose ffmpeg
    starts, exits with code 0 and leaves an output. *)
Definition sample_answer (read : ReadResult) : Answer :=
  mkAnswer 120 false None read 0 true.

(** A job starts ffmpeg, reads a line and finds [cancel_event] cleared;
    then Pause is pressed, then Cancel. *)
Definition paused_then_cancelled : list Label :=
  [Start;
   Step 0 (sample_answer GotEof); Step 0 (sample_answer GotEof);
   Step 0 (sample_answer GotEof); Step 0 (sample_answer GotEof);
   Step 0 (sample_answer GotEof); Step 0 (sample_answer GotEof);
   Step 0 (sample_answer (GotLine "out_time_ms=60000000"));
   Step 0 (sample_answer GotEof);
   PressPause; PressCancel].



(** One job alone: it starts ffmpeg, Cancel is pressed, it reads a line,
    sees the cancellation and terminates its child. *)
Definition one_job_cancelled : list Label :=
  [Start;
   Step 0 (sample_answer GotEof); Step 0 (sample_answer GotEof);
   Step 0 (sample_answer GotEof); Step 0 (sample_answer GotEof);
   Step 0 (sample_answer GotEof); Step 0 (sample_answer GotEof);
   PressCancel;
   Step 0 (sample_answer (GotLine "out_time_ms=60000000"));
   Step 0 (sample_answer GotEof); Step 0 (sample_answer GotEof)].

End Sample.

(** * More of the program *)

(** ** More notions used in the statements *)

(** [W] with other lines read by the loop. *)
Definition with_stdout (W : Run) (ticks : list Tick) : Run :=
  mkRun (files W) (makedirs_ok W) (probe W) (popen_error W) ticks (wait_rc W)
    (cancel_after W) (terminate_ok W) (child_wrote W) (remove_ok W)
    (stderr_tail W).


(** The two calls posted for a progress line (lines 727 and 734). *)
Definition progress_calls (pct : Q) : list Action :=
  [Ui (UiSetState None (Some pct) None);
   Ui (UiSetState (Some (StProgress pct)) None None)].


(** The [set_ui_state] calls posted by job [j], oldest first. *)
Definition posted_by (j : nat) (s : Shared) : list UiCall :=
  omap (λ jc, if (fst jc =? j)%nat then Some (snd jc) else None) (posted s).

(** The job has started ffmpeg and has not returned, or has returned
    cancelled. *)
Definition running_or_cancelled (p : Pc) : bool :=
  match p with
  | PcClear | PcSetPause | PcProbe | PcPopen => false
  | PcReturned o => is_cancelled o
  | _ => true
  end.

Definition is_start (l : Label) : bool :=
  match l with Start => true | _ => false end.

(** The text of a posted call is absent or "Pause". *)
Definition posts_pause_text (c : UiCall) : Prop :=
  match c with
  | UiSetState _ _ (Some t) => t = "Pause"
  | _ => True
  end.

(** The Pause button and [pause_event]: the button reads "Pause" with the
    event set, or it reads "Resume". *)
Definition button_inv (y : Sys) : Prop :=
  Forall (λ jc, posts_pause_text (snd jc)) (posted (shared y))
  ∧ ((pause_btn (widgets (shared y)) = "Pause" ∧ pause_event (shared y) = true)
     ∨ pause_btn (widgets (shared y)) = "Resume").

(** A second job is started while the first is paused. *)
Definition Sample_started_while_paused : list Label :=
  [Start; PressPause; Start;
   Step 1 (Sample.sample_answer GotEof); Step 1 (Sample.sample_answer GotEof)].

(** The job holds [raw] at the pause wait or just after it, or it has
    posted the calls of [raw]. *)
Definition holds_line (j : nat) (d : Q) (raw : string) (base : list UiCall)
    (calls : list Action) (y : Sys) : Prop :=
  ∃ b, jobs y !! j = Some b
       ∧ (((pc b = PcPauseWait raw ∨ pc b = PcLine raw)
           ∧ job_duration b = d ∧ posted_by j (shared y) = base)
          ∨ ∃ more, posted_by j (shared y) = base ++ ui_calls calls ++ more).

(** ** Start-up: finding ffmpeg and ffprobe *)

(** What start-up reads from the machine: the folder of the program
    ([app_dir()]), the folder [BIN_DIR] of the downloaded tools,
    [shutil.which] and [os.path.isfile]. *)
Record Host := mkHost {
  app_dir : string;
  BIN_DIR : string;
  which : string → option string;
  isfile : string → bool
}.

Definition FFMPEG_EXE_NAME : string := "ffmpeg.exe".
Definition FFPROBE_EXE_NAME : string := "ffprobe.exe".

(** [bool(path)] for a path or [None]. *)
Definition path_truthy (path : option string) : bool :=
  match path with
  | Some p => negb (String.eqb p "")
  | None => false
  end.

(** [_is_exe(path)] *)
Definition _is_exe (H : Host) (path : option string) : bool :=
  match path with
  | Some p => path_truthy path && isfile H p && Py.endswith (Py.lower p) ".exe"
  | None => false
  end.

(** The list [candidates] of [resolve_ffmpeg_paths_once]. *)
Definition candidates (P : Platform) (H : Host)
    : list (option string * option string * string) :=
  [(Some (path_join P (app_dir H) FFMPEG_EXE_NAME),
    Some (path_join P (app_dir H) FFPROBE_EXE_NAME), "app_dir");
   (Some (path_join P (BIN_DIR H) FFMPEG_EXE_NAME),
    Some (path_join P (BIN_DIR H) FFPROBE_EXE_NAME), "bin_dir");
   (which H "ffmpeg", which H "ffprobe", "PATH")].

(** The loop [for ff, fp, src in candidates], entered with both globals
    [None]: the values of [FFMPEG_PATH] and [FFPROBE_PATH] it leaves. *)
Fixpoint resolve_loop (H : Host)
    (cs : list (option string * option string * string))
    : option string * option string :=
  match cs with
  | [] => (None, None)
  | (ff, fp, _) :: rest =>
      if _is_exe H ff && _is_exe H fp then (ff, fp) else resolve_loop H rest
  end.

(** [resolve_ffmpeg_paths_once()]: the new [FFMPEG_PATH] and
    [FFPROBE_PATH], and the value returned.  The version line, which is
    only displayed, is left out. *)
Definition resolve_ffmpeg_paths_once (P : Platform) (H : Host)
    : option string * option string * bool :=
  let '(ff, fp) := resolve_loop H (candidates P H) in
  if negb (path_truthy ff) || negb (path_truthy fp) then (ff, fp, false)
  else (ff, fp, true).

(** [{x.lower(): x for x in files}] *)
Definition lower_names (files : list string) : gmap string string :=
  foldl (λ low x, <[Py.lower x := x]> low) ∅ files.

(** Lines 239 to 246: the search of the two tools in the listing given by
    [os.walk]; the values of [found_ffmpeg] and [found_ffprobe]. *)
Fixpoint find_tools (P : Platform) (walk : list (string * list string))
    : option string * option string :=
  match walk with
  | [] => (None, None)
  | (root_dir, files) :: rest =>
      let low := lower_names files in
      match low !! "ffmpeg.exe", low !! "ffprobe.exe" with
      | Some a, Some b =>
          (Some (path_join P root_dir a), Some (path_join P root_dir b))
      | _, _ => find_tools P rest
      end
  end.

(** What happens during [download_and_install_ffmpeg]. *)
Record Download := mkDownload {
  bin_dir_ok : bool;   (* os.makedirs(BIN_DIR) at line 219 does not raise *)
  extracted : option (list (string * list string));
                       (* the listing of the extracted archive; [None] when the
                          download or the extraction raises *)
  copy_ok : bool       (* the two shutil.copy2 do not raise *)
}.

(** [download_and_install_ffmpeg()]: the value returned; [None] when the
    exception of line 219 leaves the function. *)
Definition download_and_install_ffmpeg (P : Platform) (D : Download)
    : option bool :=
  if negb (bin_dir_ok D) then None
  else
    match extracted D with
    | None => Some false
    | Some walk =>
        let '(found_ffmpeg, found_ffprobe) := find_tools P walk in
        if negb (path_truthy found_ffmpeg) || negb (path_truthy found_ffprobe)
        then Some false
        else Some (copy_ok D)
    end.

(** What the user sees of [ensure_ffmpeg_or_quit]. *)
Inductive BootEvent :=
| AskDownload                  (* messagebox.askyesno *)
| DownloadTools                (* download_and_install_ffmpeg() *)
| ShowError (title : string)   (* messagebox.showerror *)
| DestroyRoot                  (* root.destroy() *)
| SaveSettings                 (* save_settings() at line 1003 *).

(** How [ensure_ffmpeg_or_quit] ends. *)
Inductive Ensured :=
| SysExit                                  (* sys.exit(0) *)
| BootRaised                               (* an exception leaves the function *)
| EnsuredTrue (ff fp : option string)      (* return True, with the two globals *).

(** What the outside world does during start-up. *)
Record Boot := mkBoot {
  host_at_start : Host;
  askyesno : bool;                (* the answer to "download automatically?" *)
  download : Download;
  host_after_download : Host;     (* the machine as the second resolution finds it *)
  test_run : string → option Z;   (* the test encodes of detect_encoders_once *)
  refresh_ok : bool;              (* encoder_combo["values"] = ... does not raise *)
  settings_dir_out : string;      (* settings.get("dir_out", DEFAULT_OUTPUT) *)
  settings_encoder : string       (* settings.get("encoder", "CPU") *)
}.

Definition ensure_ffmpeg_or_quit (P : Platform) (B : Boot)
    : list BootEvent * Ensured :=
  let '(ff, fp, ok) := resolve_ffmpeg_paths_once P (host_at_start B) in
  if ok then ([], EnsuredTrue ff fp)
  else
    let t := [AskDownload] in
    if negb (askyesno B) then (t ++ [DestroyRoot], SysExit)
    else
      let t := t ++ [DownloadTools] in
      match download_and_install_ffmpeg P (download B) with
      | None => (t, BootRaised)
      | Some installed =>
          if negb installed then
            (t ++ [ShowError "FFmpeg Download Failed"; DestroyRoot], SysExit)
          else
            let '(ff, fp, ok2) :=
              resolve_ffmpeg_paths_once P (host_after_download B) in
            if negb ok2 then
              (t ++ [ShowError "FFmpeg Not Detected"; DestroyRoot], SysExit)
            else (t, EnsuredTrue ff fp)
      end.

(** [refresh_encoder_dropdown()]: the new value of [encode_w]. *)
Definition refresh_encoder_dropdown (ENCODERS : gmap string string)
    (refresh_ok : bool) (encode_w : string) : string :=
  if refresh_ok then
    if has_key ENCODERS encode_w then encode_w else auto_best_encoder ENCODERS
  else encode_w.

(** Lines 997 to 1003: the globals read by the jobs once the program is
    up; [None] when the program has left. *)
Definition startup (P : Platform) (B : Boot) : list BootEvent * option Globals :=
  match ensure_ffmpeg_or_quit P B with
  | (t, EnsuredTrue ff fp) =>
      let ENCODERS := detect_encoders_once ff (test_run B) in
      let encode_w :=
        refresh_encoder_dropdown ENCODERS (refresh_ok B) (settings_encoder B) in
      if has_key ENCODERS encode_w then
        (t, Some (mkGlobals ff fp ENCODERS (settings_dir_out B) encode_w))
      else
        (t ++ [SaveSettings],
         Some (mkGlobals ff fp ENCODERS (settings_dir_out B)
                 (auto_best_encoder ENCODERS)))
  | (t, _) => (t, None)
  end.

(** The user picks a folder ([choose_output]) or an encoder of the list
    ([encoder_combo], whose values are the keys of [ENCODERS]). *)
Definition with_choices (G : Globals) (dir_out encode_w : string) : Globals :=
  mkGlobals (FFMPEG_PATH G) (FFPROBE_PATH G) (ENCODERS G) dir_out encode_w.

(** A Windows machine with the two tools in the folder of the program. *)
Definition Sample_bundled : Host :=
  mkHost "C:/app" "C:/data/bin" (λ _, None)
    (λ p, String.eqb p "C:/app/ffmpeg.exe" || String.eqb p "C:/app/ffprobe.exe").

(** A machine with the two tools on the PATH only, named without ".exe". *)
Definition Sample_unix : Host :=
  mkHost "/opt/app" "/home/u/bin"
    (λ n, if String.eqb n "ffmpeg" then Some "/usr/bin/ffmpeg"
          else if String.eqb n "ffprobe" then Some "/usr/bin/ffprobe" else None)
    (λ p, String.eqb p "/usr/bin/ffmpeg" || String.eqb p "/usr/bin/ffprobe").

(** Start-up on [Sample_bundled], "NVENC" saved in the settings and no
    hardware encoder working. *)
Definition Sample_boot : Boot :=
  mkBoot Sample_bundled false (mkDownload true None false) Sample_bundled
    (λ _, Some 1%Z) true "out" "NVENC".

(** The job asks for [save_settings] (line 620). *)
Definition is_save_settings (a : Action) : bool :=
  match a with Ui UiSaveSettings => true | _ => false end.

(** The folder listing [files] holds both tools, letter case ignored. *)
Definition holds_both (files : list string) : Prop :=
  (∃ x, x ∈ files ∧ Py.lower x = "ffmpeg.exe")
  ∧ (∃ y, y ∈ files ∧ Py.lower y = "ffprobe.exe").

(** [x] is the last name of [files] that reads [k] in lower case. *)
Definition last_named (files : list string) (k x : string) : Prop :=
  ∃ before after, files = before ++ x :: after
    ∧ Py.lower x = k
    ∧ Forall (λ y, Py.lower y ≠ k) after.

(** ** The stderr drain *)

(** [tail.append(x)] on a [deque(maxlen=n)]: when the deque is full, the
    oldest item is dropped. *)
Definition deque_append (maxlen : nat) (tail : list string) (x : string)
    : list string :=
  if (length tail <? maxlen)%nat then tail ++ [x] else drop 1 tail ++ [x].

(** [drain_stderr(proc, tail)] on the lines the child has written so far:
    the content of [tail] (an exception ends the loop as the end of the
    output does). *)
Fixpoint drain_stderr (lines : list string) (tail : list string) : list string :=
  match lines with
  | [] => tail
  | line :: rest =>
      let line := Py.rstrip line in
      if negb (String.eqb line "")
      then drain_stderr rest (deque_append 10 tail line)
      else drain_stderr rest tail
  end.

(** The last [n] items of [l]. *)
Definition last_n {A} (n : nat) (l : list A) : list A := drop (length l - n) l.

(** The lines of the child kept for the log: stripped on the right, the
    empty ones left out. *)
Definition kept_lines (lines : list string) : list string :=
  List.filter (λ l, negb (String.eqb l "")) (Py.rstrip <$> lines).

(** ** The log *)

(** The log box ([None] until line 883 creates it), the buffer of the
    messages logged before, and what was appended to the two log files. *)
Record Logs := mkLogs {
  log_box : option (list string);
  _ui_buffer : list string;
  LOG_UI_FILE : list string;
  LOG_FULL_FILE : list string
}.

(** A call [log(msg, full_only)] and what the outside world does of it:
    the time read by [ts()], whether [log_box.insert] and the two
    [open(path, "a")] work. *)
Record LogCall := mkLogCall {
  msg : string;
  full_only : bool;
  ts : string;
  insert_ok : bool;
  ui_file_ok : bool;
  full_file_ok : bool
}.

(** [_safe_append(path, text)] *)
Definition _safe_append (ok : bool) (file : list string) (text : string)
    : list string :=
  if ok then file ++ [text] else file.

(** [log(msg, full_only)] *)
Definition log (c : LogCall) (s : Logs) : Logs :=
  let s :=
    if full_only c then s
    else
      let s :=
        match log_box s with
        | Some box =>
            if insert_ok c
            then mkLogs (Some (box ++ [msg c +:+ newline])) (_ui_buffer s)
                   (LOG_UI_FILE s) (LOG_FULL_FILE s)
            else s
        | None =>
            mkLogs (log_box s) (_ui_buffer s ++ [msg c])
              (LOG_UI_FILE s) (LOG_FULL_FILE s)
        end in
      mkLogs (log_box s) (_ui_buffer s)
        (_safe_append (ui_file_ok c) (LOG_UI_FILE s) (msg c +:+ newline))
        (LOG_FULL_FILE s) in
  mkLogs (log_box s) (_ui_buffer s) (LOG_UI_FILE s)
    (_safe_append (full_file_ok c) (LOG_FULL_FILE s)
       ("[" +:+ ts c +:+ "] " +:+ msg c +:+ newline)).

(** Lines 883 to 895: the log box is created and receives the buffered
    messages; [insert_works m] tells whether the insertion of [m] works. *)
Definition open_log_box (insert_works : string → bool) (s : Logs) : Logs :=
  mkLogs
    (Some (foldl (λ box m, if insert_works m then box ++ [m +:+ newline] else box)
             [] (_ui_buffer s)))
    [] (LOG_UI_FILE s) (LOG_FULL_FILE s).

(** The calls [cs] in order. *)
Definition log_all (cs : list LogCall) (s : Logs) : Logs :=
  foldl (λ s c, log c s) s cs.

(** The lines that the calls [cs] mean for the user. *)
Definition shown (cs : list LogCall) : list string :=
  (λ c, msg c +:+ newline) <$> List.filter (λ c, negb (full_only c)) cs.

(** ** The numbers of the status line *)

(** Lines 729 to 731: [eta], from [duration], [out_time] and the time
    elapsed since the start. *)
Definition eta_of (duration out_time since_start : Q) : Q :=
  let elapsed := py_max (1 # 1000) since_start in
  let speed := if Qlt_bool 0 out_time then (out_time / elapsed)%Q else 0%Q in
  if Qlt_bool 0 speed then ((duration - out_time) / speed)%Q else 0%Q.

(** What [output_kbps] remembers between two calls. *)
Record Meter := mkMeter {
  last_bytes : option Z;
  last_bytes_time : option Q
}.

(** What [output_kbps] finds at [out_path]. *)
Inductive Stat :=
| NoFile                (* os.path.exists is false *)
| StatRaised            (* os.path.getsize raises *)
| Size (b : Z).

(** Python's [max(a, b)] on integers. *)
Definition py_max_int (a b : Z) : Z := if (a <? b)%Z then b else a.

(** [output_kbps()] at time [t]: the value returned and what is
    remembered. *)
Definition output_kbps (st : Stat) (t : Q) (m : Meter) : Q * Meter :=
  match st with
  | NoFile => (0%Q, m)
  | StatRaised => (0%Q, m)
  | Size b =>
      match last_bytes m with
      | None => (0%Q, mkMeter (Some b) (Some t))
      | Some lb =>
          let lt := match last_bytes_time m with
                    | Some x => if Qeq_bool x 0 then t else x
                    | None => t
                    end in
          let dt := py_max (1 # 1000) (t - lt) in
          let db := py_max_int 0 (b - (if (lb =? 0)%Z then 0 else lb)) in
          (((inject_Z db / dt) / 1024)%Q, mkMeter (Some b) (Some t))
      end
  end.

(** ** The probe, stream by stream *)

(** [stream.get('codec_type') == t] on a stream that is a dict. *)
Definition stream_type_is (t : string) (stream : json) : bool :=
  match Json.get stream "codec_type" JNull with
  | Some v => Json.eq_str v t
  | None => false
  end.

(** [stream.get(k, '')] on a stream that is a dict. *)
Definition stream_field (stream : json) (k : string) : json :=
  default (JStr "") (Json.get stream k (JStr "")).

(** The dict built at lines 354 to 358. *)
Definition video_of (stream : json) : gmap string json :=
  <["pix_fmt" := stream_field stream "pix_fmt"]>
    (<["profile" := stream_field stream "profile"]>
       (<["codec_name" := stream_field stream "codec_name"]> ∅)).

(** An audio stream whose codec name is not empty. *)
Definition names_audio (stream : json) : bool :=
  stream_type_is "audio" stream && Json.truthy (stream_field stream "codec_name").

Definition is_dict (v : json) : bool :=
  match v with JObj _ => true | _ => false end.

(** The video dict of the first video stream, [{}] when there is none. *)
Definition first_video (streams : list json) : gmap string json :=
  match List.find (stream_type_is "video") streams with
  | Some stream => video_of stream
  | None => ∅
  end.

(** ** The settings and the start-up notice *)

(** The dict [settings], and the settings file as [json.load] reads it
    ([None]: no file, or a file that does not parse). *)
Record Config := mkConfig {
  settings : gmap string json;
  CONFIG_FILE : option json
}.

(** [load_settings()] *)
Definition load_settings (file : option json) : json :=
  default (JObj []) file.

(** The value loaded, used as a dict by [settings.get]; [None] is the
    [AttributeError] of a value that is not a dict. *)
Definition as_dict (v : json) : option (gmap string json) :=
  match v with
  | JObj items => Some (list_to_map items)
  | _ => None
  end.

(** What happens to the file when [save_settings] writes it. *)
Inductive WriteResult :=
| Written        (* the file holds the new settings *)
| NotOpened      (* open(CONFIG_FILE, "w") raises: the file is untouched *)
| Broken         (* json.dump raises: the file is left incomplete *).

(** [save_settings()]; [vars] holds [dir_out.get()] and [encode_w.get()]
    once the two variables exist. *)
Definition save_settings (P : Platform) (vars : option (string * string))
    (w : WriteResult) (c : Config) : Config :=
  let data : list (string * json) :=
    [("dir_out",
      match vars with
      | Some (d, _) => JStr d
      | None => default (JStr (DEFAULT_OUTPUT P)) (settings c !! "dir_out")
      end);
     ("encoder",
      match vars with
      | Some (_, e) => JStr e
      | None => default (JStr "CPU") (settings c !! "encoder")
      end);
     ("startup_notice",
      default (JBool true) (settings c !! "startup_notice"))] in
  match w with
  | Written => mkConfig (list_to_map data ∪ settings c) (Some (JObj data))
  | NotOpened => c
  | Broken => mkConfig (settings c) None
  end.

(** [startup_notice(force_show)]: whether the notice is displayed. *)
Definition startup_notice (force_show : bool) (c : Config) : bool :=
  let show := default (JBool true) (settings c !! "startup_notice") in
  negb (negb (Json.truthy show) && negb force_show).

(** [close_notice()], with the state of the box "Don't show this again". *)
Definition close_notice (P : Platform) (vars : option (string * string))
    (w : WriteResult) (dont_show : bool) (c : Config) : Config :=
  let c := if dont_show
           then mkConfig (<["startup_notice" := JBool false]> (settings c))
                  (CONFIG_FILE c)
           else c in
  save_settings P vars w c.

(** The program is started again: [settings] is read from the file. *)
Definition next_session (c : Config) : option Config :=
  s ← as_dict (load_settings (CONFIG_FILE c));
  Some (mkConfig s (CONFIG_FILE c)).

(** * Properties *)

(** ** The encoder registry *)

Section Registry.

Variable ffmpeg_path : option string.
Variable run : string → option Z.

Let detected := detect_encoders_once ffmpeg_path run.

(** The map built by detection, key by key. *)
Lemma detected_lookup (k : string) :
  detected !! k =
    if String.eqb k "QSV" then
      if test_encoder ffmpeg_path run "h264_qsv" then Some "h264_qsv" else None
    else if String.eqb k "NVENC" then
      if test_encoder ffmpeg_path run "h264_nvenc" then Some "h264_nvenc" else None
    else if String.eqb k "AMF" then
      if test_encoder ffmpeg_path run "h264_amf" then Some "h264_amf" else None
    else if String.eqb k "CPU" then Some "libx264"
    else None.
Proof.
  unfold detected, detect_encoders_once.
  destruct (String.eqb_spec k "QSV") as [->|?];
    [|destruct (String.eqb_spec k "NVENC") as [->|?];
      [|destruct (String.eqb_spec k "AMF") as [->|?];
        [|destruct (String.eqb_spec k "CPU") as [->|?]]]].
  all: repeat case_match; by simplify_map_eq.
Qed.

Lemma detected_codec (k enc : string) :
  detected !! k = Some enc →
  enc ∈ ["libx264"; "h264_amf"; "h264_nvenc"; "h264_qsv"].
Proof.
  rewrite detected_lookup.
  repeat case_match; intros; simplify_eq; set_solver.
Qed.

Lemma detected_has_cpu : detected !! "CPU" = Some "libx264".
Proof. by rewrite detected_lookup. Qed.

End Registry.

Lemma has_key_true (E : gmap string string) (k : string) :
  has_key E k = true ↔ is_Some (E !! k).
Proof. unfold has_key. by rewrite bool_decide_eq_true. Qed.

Lemma has_key_false (E : gmap string string) (k : string) :
  has_key E k = false ↔ E !! k = None.
Proof.
  unfold has_key. rewrite bool_decide_eq_false. by rewrite eq_None_not_Some.
Qed.

(** [first_available] returns the first key of the list that is in the
    map, and "CPU" when there is none. *)
Lemma first_available_spec (E : gmap string string) (prefs : list string) :
  (∃ before pref after,
      prefs = before ++ pref :: after
      ∧ first_available E prefs = pref
      ∧ is_Some (E !! pref)
      ∧ ∀ k, k ∈ before → E !! k = None)
  ∨ (first_available E prefs = "CPU" ∧ ∀ k, k ∈ prefs → E !! k = None).
Proof.
  induction prefs as [|pref rest IH]; simpl.
  - right. split; [done|]. intros k Hk. by apply elem_of_nil in Hk.
  - destruct (has_key E pref) eqn:Hp.
    + left. exists [], pref, rest. apply has_key_true in Hp.
      repeat split; try done. intros k Hk. by apply elem_of_nil in Hk.
    + apply has_key_false in Hp.
      destruct IH as [(before & p & after & -> & Hf & Hs & Hb)|[Hf Hn]].
      * left. exists (pref :: before), p, after. repeat split; try done.
        intros k [->|Hk]%elem_of_cons; auto.
      * right. split; [done|]. intros k [->|Hk]%elem_of_cons; auto.
Qed.

(** C4. On every map built by detection, [auto_best_encoder] returns the
    first of "AMF", "NVENC", "QSV" that is a key of the map, and "CPU"
    when none of them is; a hardware id is a key exactly when its test
    encode succeeded; "CPU" is always a key, so the encoder returned is
    always a key of the map. *)
Theorem auto_best_encoder_priority (ffmpeg_path : option string)
    (run : string → option Z) :
  let E := detect_encoders_once ffmpeg_path run in
  let works := test_encoder ffmpeg_path run in
  ((∃ before pref after,
       ["AMF"; "NVENC"; "QSV"] = before ++ pref :: after
       ∧ auto_best_encoder E = pref
       ∧ is_Some (E !! pref)
       ∧ ∀ k, k ∈ before → E !! k = None)
   ∨ (auto_best_encoder E = "CPU"
      ∧ ∀ k, k ∈ ["AMF"; "NVENC"; "QSV"] → E !! k = None))
  ∧ (is_Some (E !! "AMF") ↔ works "h264_amf" = true)
  ∧ (is_Some (E !! "NVENC") ↔ works "h264_nvenc" = true)
  ∧ (is_Some (E !! "QSV") ↔ works "h264_qsv" = true)
  ∧ E !! "CPU" = Some "libx264"
  ∧ is_Some (E !! auto_best_encoder E).
Proof.
  intros E works. split; [apply first_available_spec|].
  assert (HE : ∀ k, is_Some (E !! k) ↔ has_key E k = true)
    by (intros; symmetry; apply has_key_true).
  unfold auto_best_encoder, first_available. rewrite !HE.
  unfold has_key, E, works. rewrite !detected_lookup. simpl.
  repeat case_match; simpl; rewrite ?bool_decide_eq_true; 
  repeat split; intros; try done; eauto.
Qed.

(** ** The command builder *)

Lemma video_is_spec (video : gmap string json) (k s : string) :
  video_is video k s = true ↔ video !! k = Some (JStr s).
Proof.
  unfold video_is, Json.eq_str. repeat case_match; try (split; congruence).
  rewrite String.eqb_eq. split; congruence.
Qed.

Lemma safe_copy_spec (video : gmap string json) (chosen : string) :
  safe_copy video chosen = true ↔
    video !! "codec_name" = Some (JStr "h264")
    ∧ video !! "pix_fmt" = Some (JStr "yuv420p")
    ∧ (∃ p, p ∈ ["Baseline"; "Main"; "High"] ∧ video !! "profile" = Some (JStr p))
    ∧ chosen = "CPU".
Proof.
  unfold safe_copy. rewrite !andb_true_iff, !orb_true_iff, !video_is_spec.
  rewrite String.eqb_eq. split.
  - intros [[[? ?] Hp] ?]. repeat split; try done.
    destruct Hp as [[Hp|Hp]|Hp]; eexists; (split; [|exact Hp]); set_solver.
  - intros (? & ? & (p & Hp & ?) & ?). repeat split; try done.
    rewrite !elem_of_cons, elem_of_nil in Hp.
    destruct Hp as [->|[->|[->|[]]]]; auto.
Qed.

(** The best encoder of a map built by detection is a key of the map. *)
Lemma auto_best_encoder_detected (ffmpeg_path : option string)
    (run : string → option Z) :
  let E := detect_encoders_once ffmpeg_path run in
  is_Some (E !! auto_best_encoder E).
Proof.
  intros E. destruct (first_available_spec E ["AMF"; "NVENC"; "QSV"])
    as [(before & pref & after & _ & Hf & Hs & _)|[Hf _]];
    unfold auto_best_encoder; rewrite Hf; [done|].
  unfold E. by rewrite detected_has_cpu.
Qed.

(** The encoder chosen on a map built by detection is a key of the map. *)
Lemma choose_encoder_detected (ffmpeg_path : option string)
    (run : string → option Z) (encode_w : string) :
  let E := detect_encoders_once ffmpeg_path run in
  ∃ enc, E !! choose_encoder E encode_w = Some enc
         ∧ enc ∈ ["libx264"; "h264_amf"; "h264_nvenc"; "h264_qsv"].
Proof.
  intros E. unfold choose_encoder.
  assert (is_Some (E !! (if has_key E encode_w then encode_w
                         else auto_best_encoder E))) as [enc Henc].
  { destruct (has_key E encode_w) eqn:Hk; [by apply has_key_true|].
    apply auto_best_encoder_detected. }
  exists enc. split; [done|]. by eapply detected_codec.
Qed.

(** Case analysis on the comparisons of an unknown string. *)
Ltac split_eqb :=
  repeat match goal with
    | |- context [String.eqb ?v ?c] => is_var v; destruct (String.eqb v c)
    end.

(** C2. With the encoders found by detection, the command is always
    built, and it holds "-c:v copy" if and only if the probed video codec
    is h264, the pixel format is yuv420p, the profile is Baseline, Main or
    High, and the encoder chosen is "CPU"; when one of the four fails, it
    holds instead "-c:v enc" for the codec [enc] of the chosen encoder,
    followed by the re-encode parameters. *)
Theorem video_stream_copy_iff (ffmpeg_path : option string)
    (run : string → option Z) (ffmpeg input_file out_path encode_w : string)
    (info : FileInfo) :
  let E := detect_encoders_once ffmpeg_path run in
  let chosen := choose_encoder E encode_w in
  ∃ cmd,
    build_cmd ffmpeg E input_file out_path info chosen = Some cmd
    ∧ (has_option "-c:v" "copy" cmd = true ↔
         video info !! "codec_name" = Some (JStr "h264")
         ∧ video info !! "pix_fmt" = Some (JStr "yuv420p")
         ∧ (∃ p, p ∈ ["Baseline"; "Main"; "High"]
                 ∧ video info !! "profile" = Some (JStr p))
         ∧ chosen = "CPU")
    ∧ (has_option "-c:v" "copy" cmd = false →
         ∃ enc, E !! chosen = Some enc
           ∧ enc ≠ "copy"
           ∧ has_option "-c:v" enc cmd = true
           ∧ video_args E (video info) chosen =
               Some (["-c:v"; enc; "-pix_fmt"; "yuv420p"; "-profile:v"; "high";
                      "-level"; "4.1"] ++ quality_args enc)).
Proof.
  intros E chosen.
  destruct (choose_encoder_detected ffmpeg_path run encode_w) as (enc & Henc & Hin).
  fold E in Henc. fold chosen in Henc.
  pose proof (safe_copy_spec (video info) chosen) as Hspec.
  unfold build_cmd, video_args. rewrite Henc. simpl.
  rewrite !elem_of_cons, elem_of_nil in Hin.
  destruct (safe_copy (video info) chosen) eqn:Hsafe; simpl;
    unfold audio_args; destruct (_ || _); simpl.
  all: eexists; split; [reflexivity|].
  all: destruct Hin as [->|[->|[->|[->|[]]]]].
  all: split;
    [simpl; split_eqb; simpl; rewrite <- Hspec; split; congruence|].
  all: simpl; split_eqb; simpl; intros Hno; try congruence.
  all: match goal with Henc : _ = Some ?e |- _ => exists e end.
  all: repeat split; try congruence.
  all: simpl; split_eqb; reflexivity.
Qed.

Lemma eq_str_spec (v : json) (s : string) :
  Json.eq_str v s = true ↔ v = JStr s.
Proof.
  destruct v; simpl; try (split; congruence).
  rewrite String.eqb_eq. split; congruence.
Qed.

(** C3. The command holds "-c:a copy" if and only if the probed audio
    codec is "aac" or "mp3"; for any other value (the empty string of an
    unknown codec too) it holds "-c:a aac" and "-b:a 192k". *)
Theorem audio_passthrough_iff (ffmpeg_path : option string)
    (run : string → option Z) (ffmpeg input_file out_path encode_w : string)
    (info : FileInfo) :
  let E := detect_encoders_once ffmpeg_path run in
  let chosen := choose_encoder E encode_w in
  ∃ cmd,
    build_cmd ffmpeg E input_file out_path info chosen = Some cmd
    ∧ (has_option "-c:a" "copy" cmd = true ↔
         audio info = JStr "aac" ∨ audio info = JStr "mp3")
    ∧ (has_option "-c:a" "copy" cmd = false →
         audio_args (audio info) = ["-c:a"; "aac"; "-b:a"; "192k"]
         ∧ has_option "-c:a" "aac" cmd = true
         ∧ has_option "-b:a" "192k" cmd = true).
Proof.
  intros E chosen.
  destruct (choose_encoder_detected ffmpeg_path run encode_w) as (enc & Henc & Hin).
  fold E in Henc. fold chosen in Henc.
  assert (Hspec : Json.eq_str (audio info) "aac" || Json.eq_str (audio info) "mp3" = true
                  ↔ audio info = JStr "aac" ∨ audio info = JStr "mp3")
    by (by rewrite orb_true_iff, !eq_str_spec).
  unfold build_cmd, video_args, audio_args. rewrite Henc. simpl.
  rewrite !elem_of_cons, elem_of_nil in Hin.
  destruct (safe_copy (video info) chosen);
    destruct (_ || _); simpl.
  all: eexists; split; [reflexivity|].
  all: destruct Hin as [->|[->|[->|[->|[]]]]].
  all: split; [simpl; split_eqb; simpl; rewrite <- Hspec; split; congruence|].
  all: simpl; split_eqb; simpl; intros Hno; try congruence.
  all: repeat split.
Qed.

(** ** The worker *)

Lemma supervise_outcome (W : Run) (out_path : string) (d : Q) (t : list Action) :
  reached_running (outcome (supervise W out_path d t)) = true.
Proof.
  unfold supervise, cancel_in_loop, after_loop.
  destruct (event_loop d (stdout W)) as [[] calls]; by repeat case_match.
Qed.

(** A job that reaches the event loop has passed every earlier test. *)
Lemma convert_file_running (P : Platform) (G : Globals) (input_file : string)
    (W : Run) :
  reached_running (outcome (convert_file P G input_file W)) = true →
  ∃ t, convert_file P G input_file W =
         supervise W (out_path_of P G input_file)
           (duration (get_file_info P (probe W))) t
       ∧ launch_count t = 1
       ∧ popen_error W = None
       ∧ Qeq_bool (duration (get_file_info P (probe W))) 0 = false.
Proof.
  unfold convert_file.
  repeat case_match; simpl; try discriminate; intros _.
  all: eexists; split; [reflexivity|]; repeat split; try done.
  all: unfold launch_count; rewrite !List.filter_app; simpl; by repeat case_match.
Qed.

(** C6. With both tools found, when the path does not end in ".avi"
    (letter case ignored) or names no file on disk, [convert_file] posts
    one informational log line ("Skipped (not AVI): ..." or
    "Missing file: ..."), not a failure, and returns: ffprobe is not run,
    ffmpeg is not started, the event loop is not reached and the disk is
    unchanged. *)
Theorem skipped_without_probe_or_launch (P : Platform) (G : Globals)
    (input_file : string) (W : Run) :
  tools_resolved G →
  Py.endswith (Py.lower input_file) ".avi" = false
    ∨ files W !! input_file = None →
  let r := convert_file P G input_file W in
  (∃ msg, trace r = [Ui (UiLog msg)]
          ∧ is_failure_msg msg = false
          ∧ (msg = "Skipped (not AVI): " +:+ input_file
             ∨ msg = "Missing file: " +:+ input_file))
  ∧ (outcome r = SkippedNotAvi ∨ outcome r = SkippedMissing)
  ∧ reached_running (outcome r) = false
  ∧ probe_count (trace r) = 0
  ∧ launch_count (trace r) = 0
  ∧ disk r = files W.
Proof.
  intros [[ffmpeg Hm] [ffprobe Hp]] Hbad r. unfold r, convert_file.
  rewrite Hm, Hp.
  destruct (Py.endswith (Py.lower input_file) ".avi") eqn:Havi; simpl.
  - destruct Hbad as [?|Hnone]; [done|].
    unfold path_exists. rewrite Hnone. simpl.
    repeat split; eauto.
  - repeat split; eauto.
Qed.

(** "notes.txt" is skipped. *)
Lemma skipped_without_probe_or_launch_witness :
  let r := convert_file Sample.platform Sample.globals "notes.txt"
             (Sample.a_run ProbeRaised [] 0 false None) in
  outcome r = SkippedNotAvi ∧ launch_count (trace r) = 0.
Proof.
  assert (Ht : tools_resolved Sample.globals) by (split; eexists; reflexivity).
  destruct (skipped_without_probe_or_launch Sample.platform Sample.globals
              "notes.txt" (Sample.a_run ProbeRaised [] 0 false None) Ht)
    as (_ & _ & _ & _ & Hl & _).
  - left. reflexivity.
  - split; [reflexivity | exact Hl].
Defined.

Lemma probe_failed_no_info (P : Platform) (r : ProbeRun) :
  probe_failed P r → get_file_info P r = no_file_info.
Proof.
  destruct r as [|rc out]; simpl; [done|].
  intros [Hrc|Hnone].
  - destruct (Z.eqb_spec rc 0); [done|reflexivity].
  - rewrite Hnone. by destruct (rc =? 0)%Z.
Qed.

(** C5, as amended.  When the probe raises or exits with a code other
    than zero, or its output is malformed, or the parsed duration is equal
    to zero, the job stops at line 604: ffmpeg is never started, the event
    loop is not reached, the disk is unchanged, and once ffprobe has run
    the outcome is [InspectionFailed] with the line "Could not read file
    info".  A negative duration is not covered. *)
Theorem inspection_failed_no_launch (P : Platform) (G : Globals)
    (input_file : string) (W : Run) :
  probe_failed P (probe W)
    ∨ (duration (get_file_info P (probe W)) == 0)%Q →
  let r := convert_file P G input_file W in
  launch_count (trace r) = 0
  ∧ reached_running (outcome r) = false
  ∧ disk r = files W
  ∧ (probe_count (trace r) = 1 →
       outcome r = InspectionFailed
       ∧ ∃ t, trace r = t ++ [Ui (UiLog "❌ Could not read file info")]).
Proof.
  intros Hbad r.
  assert (Hzero : Qeq_bool (duration (get_file_info P (probe W))) 0 = true).
  { destruct Hbad as [Hf|Hz].
    - by rewrite (probe_failed_no_info _ _ Hf).
    - by apply Qeq_bool_iff. }
  unfold r, convert_file. rewrite Hzero.
  repeat case_match; simpl; repeat split; try done.
  all: by eexists [_; _; _; _].
Qed.

(** A probed duration of "0.000000": the job stops before ffmpeg. *)
Lemma inspection_failed_no_launch_witness :
  let r := convert_file Sample.platform Sample.globals "movie.avi"
             (Sample.a_run (ProbeExited 0 (Some (Sample.probed "0.000000")))
                [Sample.half_way] 0 false None) in
  launch_count (trace r) = 0 ∧ outcome r = InspectionFailed.
Proof.
  destruct (inspection_failed_no_launch Sample.platform Sample.globals
              "movie.avi"
              (Sample.a_run (ProbeExited 0 (Some (Sample.probed "0.000000")))
                 [Sample.half_way] 0 false None)) as (Hl & _ & _ & Ho).
  - right. reflexivity.
  - split; [exact Hl|]. apply Ho. reflexivity.
Defined.

(** C5 as stated fails: a parsed duration of -5 is not equal to zero, so
    the job goes on, starts ffmpeg and completes. *)
Lemma negative_duration_is_converted :
  let W := Sample.a_run (ProbeExited 0 (Some (Sample.probed "-5.0")))
             [Sample.half_way] 0 false (Some 500%N) in
  let r := convert_file Sample.platform Sample.globals "movie.avi" W in
  (duration (get_file_info Sample.platform (probe W)) <= 0)%Q
  ∧ launch_count (trace r) = 1
  ∧ outcome r = Completed.
Proof.
  split; [apply Qle_bool_iff; reflexivity|]. split; reflexivity.
Qed.

Lemma path_exists_Some (fs : gmap string N) (p : string) (n : N) :
  fs !! p = Some n → path_exists fs p = true.
Proof. intros H. unfold path_exists. rewrite H. by apply bool_decide_eq_true_2. Qed.

Lemma path_exists_None (fs : gmap string N) (p : string) :
  fs !! p = None → path_exists fs p = false.
Proof.
  intros H. unfold path_exists. rewrite H.
  apply bool_decide_eq_false_2. by intros [? ?].
Qed.

Lemma getsize_Some (fs : gmap string N) (p : string) (n : N) :
  fs !! p = Some n → getsize fs p = n.
Proof. intros H. unfold getsize. by rewrite H. Qed.

(** What [supervise] leaves at [out_path], outcome by outcome. *)
Lemma supervise_output (W : Run) (out_path : string) (d : Q) (t : list Action) :
  let r := supervise W out_path d t in
  let left := after_child W out_path !! out_path in
  (is_cancelled (outcome r) = true → remove_ok W = true →
     disk r !! out_path = None)
  ∧ (outcome r = FailedOutput →
       disk r = after_child W out_path ∧ (left = None ∨ left = Some 0%N))
  ∧ (outcome r = FailedExit →
       (left = Some 0%N → remove_ok W = true → disk r !! out_path = None)
       ∧ (left ≠ Some 0%N → disk r = after_child W out_path)).
Proof.
  intros r left. unfold r, supervise, cancel_in_loop, after_loop.
  destruct (event_loop d (stdout W)) as [exit calls].
  destruct (after_child W out_path !! out_path) as [size|] eqn:Hleft; subst left.
  - rewrite (path_exists_Some _ _ _ Hleft), (getsize_Some _ _ _ Hleft).
    destruct (N.ltb_spec 0 size) as [Hlt|Hge];
      destruct (N.eqb_spec size 0) as [Heq|Hne]; try lia.
    all: destruct exit; repeat case_match; simpl; repeat split; intros;
      simplify_eq; try done; try apply lookup_delete_eq; auto.
  - rewrite (path_exists_None _ _ Hleft).
    destruct exit; repeat case_match; simpl; repeat split; intros;
      simplify_eq; try done; auto.
Qed.

Lemma ended_badly_running (o : Outcome) :
  is_cancelled o || is_failed_run o = true → reached_running o = true.
Proof. by destruct o. Qed.

(** C1, as amended.  After a job that ends cancelled or failed:
    - cancelled, and [os.remove] did not raise: there is no file at
      [out_path];
    - failed on a zero exit code with a missing or empty output: the disk
      is as the child left it, with no file or an empty file at
      [out_path];
    - failed on a non-zero exit code: an empty file at [out_path] is
      removed (when [os.remove] does not raise); anything else is left as
      the child left it, a partial output that is not empty included. *)
Theorem output_after_cancel_or_failure (P : Platform) (G : Globals)
    (input_file : string) (W : Run) :
  let r := convert_file P G input_file W in
  let out_path := out_path_of P G input_file in
  let left := after_child W out_path !! out_path in
  is_cancelled (outcome r) || is_failed_run (outcome r) = true →
  (is_cancelled (outcome r) = true → remove_ok W = true →
     disk r !! out_path = None)
  ∧ (outcome r = FailedOutput →
       disk r = after_child W out_path ∧ (left = None ∨ left = Some 0%N))
  ∧ (outcome r = FailedExit →
       (left = Some 0%N → remove_ok W = true → disk r !! out_path = None)
       ∧ (left ≠ Some 0%N → disk r = after_child W out_path)).
Proof.
  intros r out_path left Hend. apply ended_badly_running in Hend.
  destruct (convert_file_running _ _ _ _ Hend) as (t & Heq & _).
  unfold r. rewrite Heq. apply supervise_output.
Qed.

(** A job cancelled at its second line, after 700 bytes were written:
    the file is removed. *)
Lemma output_after_cancel_or_failure_witness :
  let W := Sample.a_run (ProbeExited 0 (Some (Sample.probed "120.000000")))
             [Sample.half_way; TLine "out_time_ms=90000000" true true]
             0 false (Some 700%N) in
  let r := convert_file Sample.platform Sample.globals "movie.avi" W in
  outcome r = CancelledInLoop ∧ disk r !! "out/movie.mp4" = None.
Proof.
  split; [reflexivity|].
  destruct (output_after_cancel_or_failure Sample.platform Sample.globals
              "movie.avi"
              (Sample.a_run (ProbeExited 0 (Some (Sample.probed "120.000000")))
                 [Sample.half_way; TLine "out_time_ms=90000000" true true]
                 0 false (Some 700%N))) as (Hcancel & _ & _).
  - reflexivity.
  - exact (Hcancel eq_refl eq_refl).
Defined.

(** C1 as stated fails: ffmpeg exits with code 1 after writing 700 bytes;
    the job fails and the 700 bytes stay at [out_path]. *)
Lemma failed_job_keeps_partial_output :
  let W := Sample.a_run (ProbeExited 0 (Some (Sample.probed "120.000000")))
             [Sample.half_way] 1 false (Some 700%N) in
  let r := convert_file Sample.platform Sample.globals "movie.avi" W in
  out_path_of Sample.platform Sample.globals "movie.avi" = "out/movie.mp4"
  ∧ outcome r = FailedExit
  ∧ disk r !! "out/movie.mp4" = Some 700%N.
Proof. repeat split. Qed.

(** A loop that reads the output to its end has seen [cancel_event]
    cleared at every turn. *)
Lemma event_loop_eof (d : Q) (ticks : list Tick) :
  fst (event_loop d ticks) = ExitEof →
  Forall (λ t, match t with
               | TLine _ cancel_is_set _ => cancel_is_set = false
               | TReadError _ => True
               end) ticks.
Proof.
  induction ticks as [|[raw c p|e] rest IH]; simpl; [constructor| |done].
  destruct c; [done|]. destruct p; [|done]. simpl.
  destruct (process_line d raw); [|done].
  destruct (event_loop d rest) as [exit calls]; simpl in *.
  intros ->. constructor; auto.
Qed.

(** C7. For a job that has started ffmpeg and entered the event loop:
    it reaches [Completed] if and only if the exit code obtained from
    [wait()] is zero, [cancel_event] was set at none of the tests, and the
    output file exists with a size above zero; a completed job ends by
    posting progress 100 with the status "Done", which sets the progress
    bar to exactly 100; a zero exit code with a missing or empty output
    ends in [FailedOutput]. *)
Theorem completed_iff (P : Platform) (G : Globals) (input_file : string)
    (W : Run) :
  let r := convert_file P G input_file W in
  let out_path := out_path_of P G input_file in
  let d := duration (get_file_info P (probe W)) in
  let left := after_child W out_path !! out_path in
  reached_running (outcome r) = true →
  (outcome r = Completed ↔
     child_exit W d = Some 0%Z
     ∧ never_cancelled W
     ∧ ∃ size, left = Some size ∧ (0 < size)%N)
  ∧ (outcome r = Completed →
       disk r = after_child W out_path
       ∧ (∃ t, trace r =
                 t ++ [Ui (UiSetState (Some StDone) (Some 100%Q) None);
                       Ui (UiLog ("✅ Output: " +:+ out_path));
                       UiAfter 800 reset_ui])
       ∧ ∀ w, progress_bar (set_ui_state (Some StDone) (Some 100%Q) None w)
              = 100%Q)
  ∧ (child_exit W d = Some 0%Z → never_cancelled W →
       left = None ∨ left = Some 0%N →
       outcome r = FailedOutput).
Proof.
  intros r out_path d left Hrun.
  destruct (convert_file_running _ _ _ _ Hrun) as (t & Heq & _).
  unfold r. rewrite Heq. clear Heq Hrun r.
  fold out_path d. unfold child_exit, never_cancelled, supervise.
  pose proof (event_loop_eof d (stdout W)) as Hclean.
  destruct (event_loop d (stdout W)) as [exit calls]; simpl in *.
  unfold cancel_in_loop, after_loop.
  destruct (Z.eqb_spec (wait_rc W) 0) as [Hrc|Hrc];
    destruct (cancel_after W) eqn:Hca.
  all: destruct (after_child W out_path !! out_path) as [size|] eqn:Hleft;
    subst left;
    [rewrite ?(path_exists_Some _ _ _ Hleft), ?(getsize_Some _ _ _ Hleft);
     destruct (N.ltb_spec 0 size) as [Hlt|Hge];
     destruct (N.eqb_spec size 0) as [Hz|Hnz]; try lia
    |rewrite ?(path_exists_None _ _ Hleft)].
  all: destruct exit; simpl; repeat case_match; simpl.
  all: repeat split; try done; try (by eexists); eauto.
  all: intros;
    repeat match goal with
      | H : _ ∧ _ |- _ => destruct H
      | H : ∃ _, _ |- _ => destruct H
      | H : _ ∨ _ |- _ => destruct H
      end; simplify_eq; try done; try lia.
  by f_equal.
Qed.

(** Exit code 0, no cancellation, 700 bytes written: the job completes and
    the 700 bytes are at [out_path]. *)
Lemma completed_iff_witness :
  let W := Sample.a_run (ProbeExited 0 (Some (Sample.probed "120.000000")))
             [Sample.half_way] 0 false (Some 700%N) in
  let r := convert_file Sample.platform Sample.globals "movie.avi" W in
  outcome r = Completed ∧ disk r !! "out/movie.mp4" = Some 700%N.
Proof.
  destruct (completed_iff Sample.platform Sample.globals "movie.avi"
              (Sample.a_run (ProbeExited 0 (Some (Sample.probed "120.000000")))
                 [Sample.half_way] 0 false (Some 700%N))) as (Hiff & Hdone & _).
  - reflexivity.
  - assert (Hc : outcome (convert_file Sample.platform Sample.globals "movie.avi"
              (Sample.a_run (ProbeExited 0 (Some (Sample.probed "120.000000")))
                 [Sample.half_way] 0 false (Some 700%N))) = Completed).
    { apply Hiff. split; [reflexivity|]. split.
      - split; [reflexivity|]. repeat constructor.
      - exists 700%N. split; [reflexivity|]. reflexivity. }
    split; [exact Hc|]. destruct (Hdone Hc) as (-> & _). reflexivity.
Defined.

Lemma process_line_no_popen (d : Q) (raw : string) (calls : list Action) :
  process_line d raw = Some calls → List.filter is_popen calls = [].
Proof.
  unfold process_line. repeat case_match; intros; simplify_option_eq; try done.
  by repeat case_match; simplify_eq.
Qed.

Lemma event_loop_no_popen (d : Q) (ticks : list Tick) :
  List.filter is_popen (snd (event_loop d ticks)) = [].
Proof.
  induction ticks as [|[raw c p|e] rest IH]; simpl; try done.
  destruct c; [done|]. destruct p; [|done]. simpl.
  destruct (process_line d raw) as [calls|] eqn:Hl; [|done].
  destruct (event_loop d rest) as [exit t]; simpl in *.
  by rewrite List.filter_app, (process_line_no_popen _ _ _ Hl), IH.
Qed.

Lemma supervise_launch_count (W : Run) (out_path : string) (d : Q)
    (t : list Action) :
  launch_count (trace (supervise W out_path d t)) = launch_count t.
Proof.
  unfold supervise, cancel_in_loop, after_loop, launch_count.
  pose proof (event_loop_no_popen d (stdout W)) as Hno.
  destruct (event_loop d (stdout W)) as [exit calls]; simpl in Hno.
  destruct exit; repeat case_match; simpl;
    rewrite ?List.filter_app, ?Hno; simpl; rewrite ?app_nil_r; try done.
  all: by repeat case_match.
Qed.

(** The event loop is reached exactly when ffmpeg has been started. *)
Lemma reached_running_iff (P : Platform) (G : Globals) (input_file : string)
    (W : Run) :
  let r := convert_file P G input_file W in
  reached_running (outcome r) = true ↔
    launch_count (trace r) = 1 ∧ popen_error W = None.
Proof.
  intros r. split.
  - intros Hrun. destruct (convert_file_running _ _ _ _ Hrun) as (t & Heq & Hl & Hp & _).
    unfold r. by rewrite Heq, supervise_launch_count.
  - intros [Hl Hp]. unfold r in *. unfold convert_file in *. rewrite Hp in *.
    repeat case_match; simpl in *; try discriminate; try apply supervise_outcome.
    all: unfold launch_count in Hl; rewrite ?List.filter_app in Hl; simpl in Hl;
      repeat case_match; simpl in Hl; try discriminate.
Qed.

(** ** The progress display *)

Lemma Qlt_bool_true (a b : Q) : Qlt_bool a b = true ↔ (a < b)%Q.
Proof.
  unfold Qlt_bool. rewrite negb_true_iff. split.
  - intros H. apply Qnot_le_lt. intros Hle. apply Qle_bool_iff in Hle. congruence.
  - intros H. destruct (Qle_bool b a) eqn:Hle; [|done].
    apply Qle_bool_iff in Hle. lra.
Qed.

Lemma Qlt_bool_false (a b : Q) : Qlt_bool a b = false ↔ (b <= a)%Q.
Proof.
  unfold Qlt_bool. rewrite negb_false_iff. apply Qle_bool_iff.
Qed.





Lemma job_step_widgets (j : nat) (a : Answer) (s s' : Shared) (b b' : Job) :
  job_step j a s b = Some (s', b') → widgets s' = widgets s.
Proof.
  unfold job_step, on_current.
  repeat case_match; intros; simplify_eq; try done.
Qed.






(** ** The event loop among the other threads *)

(** What a step of a job adds to the posted calls. *)
Lemma job_step_posted (j : nat) (a : Answer) (s s' : Shared) (b b' : Job) :
  job_step j a s b = Some (s', b') →
  ∃ calls, posted s' = posted s ++ ((λ c, (j, c)) <$> calls)
           ∧ (cancel_observed (pc b) = true →
                Forall (λ c, is_progress_report c = false) calls
                ∧ cancel_observed (pc b') = true).
Proof.
  unfold job_step, on_current.
  repeat case_match; intros; simplify_eq; simpl.
  all: first
    [ by exists []; rewrite app_nil_r
    | by eexists; split; [reflexivity|]
    | by eexists [_]; split; [reflexivity|]
    | by eexists [_; _]; split; [reflexivity|]
    | eexists [_]; split; [reflexivity|]; intros _; split; [|done];
      by repeat constructor ].
Qed.

Lemma no_progress_reports (j j' : nat) (calls : list UiCall) :
  j' ≠ j ∨ Forall (λ c, is_progress_report c = false) calls →
  omap (λ jc, if (fst jc =? j)%nat && is_progress_report (snd jc)
              then Some (snd jc) else None) ((λ c, (j', c)) <$> calls) = [].
Proof.
  induction calls as [|c calls IH]; simpl; [done|]. intros Hno.
  assert (Hc : (j' =? j)%nat && is_progress_report c = false).
  { destruct Hno as [Hne|Hall].
    - apply Nat.eqb_neq in Hne. by rewrite Hne.
    - inversion Hall; subst. apply andb_false_iff. by right. }
  rewrite Hc. apply IH.
  destruct Hno as [?|Hall]; [by left|right]. by inversion Hall.
Qed.

Lemma progress_reports_post (j j' : nat) (s s' : Shared) (calls : list UiCall) :
  posted s' = posted s ++ ((λ c, (j', c)) <$> calls) →
  j' ≠ j ∨ Forall (λ c, is_progress_report c = false) calls →
  progress_reports j s' = progress_reports j s.
Proof.
  intros Hp Hno. unfold progress_reports.
  by rewrite Hp, omap_app, no_progress_reports, app_nil_r.
Qed.

Lemma tk_posted (s : Shared) :
  posted (pause_resume s) = posted s ∧ posted (cancel s) = posted s
  ∧ ∀ c k, posted (mark_ran k (run_call c s)) = posted s.
Proof.
  unfold pause_resume, cancel, run_call, tk_set_ui_state, on_current.
  repeat split; intros; by repeat case_match.
Qed.

(** Once a job has seen the cancellation, no step of the program makes it
    report progress again. *)
Lemma step_after_cancel (l : Label) (y y' : Sys) (j : nat) (b : Job) :
  jobs y !! j = Some b → cancel_observed (pc b) = true →
  step l y = Some y' →
  ∃ b', jobs y' !! j = Some b' ∧ cancel_observed (pc b') = true
        ∧ progress_reports j (shared y') = progress_reports j (shared y).
Proof.
  intros Hb Hobs Hstep. destruct (tk_posted (shared y)) as (Hpr & Hca & Hrun).
  destruct l as [|j' a| | |k]; simpl in Hstep.
  - simplify_eq. exists b. simpl. by rewrite (lookup_app_l_Some _ _ _ _ Hb).
  - destruct (jobs y !! j') as [b0|] eqn:Hb0; simpl in Hstep; [|done].
    destruct (job_step j' a (shared y) b0) as [[s' b0']|] eqn:Hj;
      simpl in Hstep; [|done].
    simplify_eq. simpl.
    destruct (job_step_posted _ _ _ _ _ _ Hj) as (calls & Hposted & Hafter).
    destruct (decide (j' = j)) as [->|Hne].
    + simplify_eq. destruct (Hafter Hobs) as [Hno Hobs'].
      exists b0'. rewrite list_lookup_insert_eq by (by eapply lookup_lt_Some).
      repeat split; [done|]. eapply progress_reports_post; eauto.
    + exists b. rewrite list_lookup_insert_ne by done.
      repeat split; try done. eapply progress_reports_post; eauto.
  - simplify_eq. exists b. unfold progress_reports. cbn [shared]. by rewrite Hpr.
  - simplify_eq. exists b. unfold progress_reports. cbn [shared]. by rewrite Hca.
  - case_bool_decide; [done|].
    destruct (posted (shared y) !! k) as [[j0 c]|]; simpl in Hstep; [|done].
    simplify_eq. exists b. unfold progress_reports. cbn [shared]. by rewrite Hrun.
Qed.

Lemma run_after_cancel (ls : list Label) (y y' : Sys) (j : nat) (b : Job) :
  jobs y !! j = Some b → cancel_observed (pc b) = true →
  run ls y = Some y' →
  progress_reports j (shared y') = progress_reports j (shared y).
Proof.
  revert y b. induction ls as [|l ls IH]; simpl; intros y b Hb Hobs Hrun.
  - by simplify_eq.
  - destruct (step l y) as [y1|] eqn:Hs; simpl in Hrun; [|done].
    destruct (step_after_cancel _ _ _ _ _ Hb Hobs Hs) as (b1 & Hb1 & Hobs1 & <-).
    eapply IH; eauto.
Qed.

(** C9, as amended.  In the event loop every line read is first brought
    to the test of [cancel_event] (line 695), which comes before the wait
    on [pause_event] (line 717) and does not depend on it.  The wait lasts
    exactly as long as [pause_event] is cleared: it ends when the job is
    resumed; [cancel()] leaves [pause_event] as it is, so a cancellation
    does not end it.  Once a job has seen the cancellation, it posts no
    report of progress any more. *)
Theorem cancel_checked_before_pause (j : nat) (a : Answer) (s : Shared)
    (b : Job) (raw : string) :
  (* every line read is first brought to the test of line 695 *)
  (pc b = PcRead → ans_read a = GotLine raw →
     job_step j a s b = Some (s, at_pc b (PcCancelCheck raw)))
  (* line 695 comes before line 717 and does not look at pause_event *)
  ∧ (pc b = PcCancelCheck raw →
       job_step j a s b =
         Some (s, at_pc b (if cancel_event s then PcTerminate
                           else PcPauseWait raw)))
  (* line 717 waits exactly as long as pause_event is cleared,
     whatever cancel_event is *)
  ∧ (pc b = PcPauseWait raw →
       (pause_event s = false → job_step j a s b = None)
       ∧ (pause_event s = true →
            job_step j a s b = Some (s, at_pc b (PcLine raw))))
  (* cancel() leaves pause_event as it is; resuming sets it *)
  ∧ pause_event (cancel s) = pause_event s
  ∧ (pause_event s = false → pause_event (pause_resume s) = true)
  (* after the cancellation is seen, no progress is reported *)
  ∧ (∀ ls y y', jobs y !! j = Some b →
       cancel_observed (pc b) = true → run ls y = Some y' →
       progress_reports j (shared y') = progress_reports j (shared y)).
Proof.
  split_and!.
  - intros H0 Hr. unfold job_step. by rewrite H0, Hr.
  - intros H. unfold job_step. rewrite H. by destruct (cancel_event s).
  - intros H. unfold job_step. rewrite H.
    split; intros Hp; by rewrite Hp.
  - done.
  - intros Hp. unfold pause_resume. rewrite Hp.
    unfold tk_set_ui_state, on_current. by repeat case_match.
  - intros ls y y'. apply run_after_cancel.
Qed.

(** C9 as stated fails: a job paused at line 717 and then cancelled stays
    blocked, with [cancel_event] set. *)
Lemma cancel_does_not_end_pause :
  match run Sample.paused_then_cancelled init with
  | Some y =>
      (pc <$> jobs y !! 0) = Some (PcPauseWait "out_time_ms=60000000")
      ∧ cancel_event (shared y) = true
      ∧ pause_event (shared y) = false
      ∧ step (Step 0 (Sample.sample_answer GotEof)) y = None
  | None => False
  end.
Proof. vm_compute. repeat split. Qed.

(** A job paused and cancelled is blocked at line 717; it goes on once
    [pause_resume] has set [pause_event]. *)
Lemma cancel_checked_before_pause_witness :
  let s := mkShared (Some 0) false true 1 [] [] []
             (mkWidgets StCancelled 0 "Resume") in
  let b := mkJob (PcPauseWait "out_time_ms=60000000") 120 (Some 0) (Some 0) in
  job_step 0 (Sample.sample_answer GotEof) s b = None
  ∧ job_step 0 (Sample.sample_answer GotEof) (pause_resume s) b
    = Some (pause_resume s, at_pc b (PcLine "out_time_ms=60000000")).
Proof.
  intros s b. split.
  - destruct (cancel_checked_before_pause 0 (Sample.sample_answer GotEof) s b
                "out_time_ms=60000000") as (_ & _ & Hwait & _).
    apply Hwait; reflexivity.
  - destruct (cancel_checked_before_pause 0 (Sample.sample_answer GotEof)
                (pause_resume s) b "out_time_ms=60000000")
      as (_ & _ & Hwait & _).
    apply Hwait; reflexivity.
Defined.

(** ** One handle and two flags for all the jobs *)








(** Only lines 588 and 589 of a job write the two flags. *)
Lemma job_step_flags (j : nat) (a : Answer) (s s' : Shared) (b b' : Job) :
  job_step j a s b = Some (s', b') →
  (pc b ≠ PcClear → cancel_event s' = cancel_event s)
  ∧ (pc b ≠ PcSetPause → pause_event s' = pause_event s)
  ∧ (pc b = PcClear → cancel_event s' = false)
  ∧ (pc b = PcSetPause → pause_event s' = true).
Proof.
  unfold job_step, on_current.
  repeat case_match; intros; simplify_eq; simpl; split_and!; congruence.
Qed.




(** ** The two views of a job

    A job left alone by the buttons (the flags stay as lines 588 and 589
    set them) goes, step by step, to the outcome of [convert_file]. *)

Lemma drive_one (fuel : nat) (ans : Pc → ReadResult → Answer)
    (ticks : list Tick) (s : Shared) (b : Job) :
  drive (S fuel) ans ticks (mkSys s [b]) =
    match pc b, ticks with
    | PcReturned _, _ => Some (mkSys s [b])
    | PcRead, t :: rest =>
        '(s', b') ← job_step 0 (ans PcRead (read_of t)) s b;
        drive fuel ans rest (mkSys s' [b'])
    | p, _ =>
        '(s', b') ← job_step 0 (ans p GotEof) s b;
        drive fuel ans ticks (mkSys s' [b'])
    end.
Proof.
  simpl. destruct (pc b); destruct ticks; simpl; try done;
    by destruct (job_step _ _ _ _) as [[? ?]|].
Qed.

Lemma drive_returned (fuel : nat) (ans : Pc → ReadResult → Answer)
    (ticks : list Tick) (s : Shared) (b : Job) :
  returned b = true → drive fuel ans ticks (mkSys s [b]) = Some (mkSys s [b]).
Proof.
  intros Hr. destruct fuel; [done|]. rewrite drive_one.
  unfold returned in Hr. by destruct (pc b).
Qed.

(** The outcome of lines 742 to 772 does not depend on the trace. *)
Lemma final_check_outcome (P : Platform) (G : Globals) (input_file : string)
    (W : Run) (s : Shared) (b : Job) (rc : Z) (t : list Action)
    (fuel : nat) (ticks : list Tick) :
  let out_path := out_path_of P G input_file in
  pc b = PcFinalCheck rc → cancel_event s = false → cancel_after W = false →
  ∃ y, drive (S fuel) (answer_of P G input_file W) ticks (mkSys s [b]) = Some y
       ∧ outcome_of_job y = Some (outcome (after_loop W out_path rc t)).
Proof.
  intros out_path Hpc Hc Hca. rewrite drive_one, Hpc.
  unfold job_step. rewrite Hpc, Hc. unfold after_loop. rewrite Hca.
  cbn [ans_output_ok answer_of]. fold out_path.
  destruct (negb (rc =? 0)%Z);
    [|destruct (path_exists _ _ && _)]; cbn [negb mbind option_bind];
    rewrite drive_returned by done; eexists; (split; [reflexivity|]);
    unfold outcome_of_job; simpl; by repeat case_match.
Qed.

(** From the read of a line to the end, for a job alone. *)
Lemma drive_loop (P : Platform) (G : Globals) (input_file : string) (W : Run)
    (d : Q) (ticks : list Tick) (s : Shared) (c r : option nat)
    (t : list Action) :
  let out_path := out_path_of P G input_file in
  quiet ticks →
  cancel_event s = false → pause_event s = true →
  cancel_after W = false →
  ∃ y, drive (4 * length ticks + 3) (answer_of P G input_file W) ticks
         (mkSys s [mkJob PcRead d c r]) = Some y
       ∧ outcome_of_job y
         = Some (outcome (match fst (event_loop d ticks) with
                          | ExitCancel => cancel_in_loop W out_path t
                          | ExitPaused => mkResult PausedForever t ∅
                          | ExitEof => after_loop W out_path (wait_rc W) t
                          | ExitRaised e => after_loop W out_path (-1) t
                          end)).
Proof.
  intros out_path Hq Hc Hp Hca. revert s Hc Hp.
  induction ticks as [|tick rest IH]; intros s Hc Hp.
  - (* the end of the output: wait(), then the tests after the loop *)
    change (4 * length (@nil Tick) + 3) with 3.
    rewrite drive_one. cbn [pc job_step at_pc ans_read answer_of mbind option_bind].
    rewrite drive_one. cbn [pc job_step at_pc ans_rc answer_of mbind option_bind
                            job_duration child reading].
    apply final_check_outcome; try done.
    unfold on_current. by case_match.
  - replace (4 * length (tick :: rest) + 3)
      with (S (S (S (S (4 * length rest + 3))))) by (simpl; lia).
    inversion Hq as [|? ? Htick Hrest]; subst.
    destruct tick as [raw cset rel|e].
    + destruct Htick as [-> ->].
      rewrite drive_one.
      cbn [pc job_step at_pc ans_read answer_of read_of mbind option_bind
           job_duration child reading].
      rewrite drive_one.
      cbn [pc job_step at_pc mbind option_bind job_duration child reading].
      rewrite Hc. cbn [mbind option_bind].
      rewrite drive_one.
      cbn [pc job_step at_pc mbind option_bind job_duration child reading].
      rewrite Hp. cbn [mbind option_bind].
      rewrite drive_one.
      cbn [pc job_step at_pc mbind option_bind job_duration child reading].
      cbn [event_loop negb].
      destruct (process_line d raw) as [calls|]; cbn [mbind option_bind].
      * destruct (IH Hrest (post 0 (ui_calls calls) s) Hc Hp) as (y & Hy & Ho).
        exists y. split; [exact Hy|]. rewrite Ho.
        by destruct (event_loop d rest).
      * cbn [fst].
        replace (4 * length rest + 3) with (S (4 * length rest + 2)) by lia.
        by apply final_check_outcome.
    + rewrite drive_one.
      cbn [pc job_step at_pc ans_read answer_of read_of mbind option_bind
           job_duration child reading].
      cbn [event_loop fst].
      by apply final_check_outcome.
Qed.

Lemma supervise_outcome_trace (W : Run) (out_path : string) (d : Q)
    (t t' : list Action) :
  outcome (supervise W out_path d t)
  = outcome (match fst (event_loop d (stdout W)) with
             | ExitCancel => cancel_in_loop W out_path t'
             | ExitPaused => mkResult PausedForever t' ∅
             | ExitEof => after_loop W out_path (wait_rc W) t'
             | ExitRaised e => after_loop W out_path (-1) t'
             end).
Proof.
  unfold supervise, cancel_in_loop, after_loop.
  destruct (event_loop d (stdout W)) as [[] calls]; simpl; by repeat case_match.
Qed.

(** A job that passes the tests of lines 576 to 586 and is left alone by
    the buttons reaches, step by step, the outcome of [convert_file]. *)
Lemma job_alone_agrees (P : Platform) (G : Globals) (input_file : string)
    (W : Run) :
  tools_resolved G →
  Py.endswith (Py.lower input_file) ".avi" = true →
  is_Some (files W !! input_file) →
  quiet (stdout W) → cancel_after W = false →
  ∃ y, drive (4 * length (stdout W) + 9) (answer_of P G input_file W)
         (stdout W) (mkSys (shared init) [new_job]) = Some y
       ∧ outcome_of_job y = Some (outcome (convert_file P G input_file W)).
Proof.
  intros [[ffmpeg Hm] [ffprobe Hf]] Havi Hex Hq Hca.
  unfold convert_file. rewrite Hm, Hf, Havi.
  unfold path_exists at 1. rewrite bool_decide_eq_true_2 by done.
  cbn [negb].
  replace (4 * length (stdout W) + 9)
    with (S (S (S (S (S (S (4 * length (stdout W) + 3))))))) by lia.
  rewrite drive_one. cbn [pc new_job job_step at_pc mbind option_bind
                          job_duration child reading].
  rewrite drive_one. cbn [pc job_step at_pc mbind option_bind
                          job_duration child reading].
  rewrite drive_one. cbn [pc job_step at_pc mbind option_bind
                          job_duration child reading ans_raises ans_duration answer_of].
  destruct (makedirs_ok W); cbn [negb mbind option_bind];
    [|rewrite drive_returned by done; by eexists].
  destruct (Qeq_bool (duration (get_file_info P (probe W))) 0) eqn:Hd;
    cbn [mbind option_bind]; [rewrite drive_returned by done; by eexists|].
  rewrite drive_one. cbn [pc job_step at_pc mbind option_bind
                          job_duration child reading ans_raises ans_popen_error
                          answer_of].
  unfold build_cmd.
  destruct (video_args _ _ _) as [vargs|]; cbn [mbind option_bind];
    [|rewrite drive_returned by done; by eexists].
  destruct (popen_error W) as [e|]; cbn [mbind option_bind];
    [rewrite drive_returned by done; by eexists|].
  rewrite drive_one. cbn [pc job_step at_pc mbind option_bind
                          job_duration child reading].
  rewrite drive_one. cbn [pc job_step at_pc mbind option_bind
                          job_duration child reading].
  rewrite (supervise_outcome_trace _ _ _ _ []).
  apply drive_loop; try done.
Qed.

(** * More properties *)

(** ** The worker, again *)

Lemma supervise_probe_count (W : Run) (out_path : string) (d : Q)
    (t : list Action) :
  probe_count (trace (supervise W out_path d t)) = probe_count t.
Proof.
  assert (Hno : ∀ ticks, List.filter is_run_probe (snd (event_loop d ticks)) = []).
  { induction ticks as [|[raw c p|e] rest IH]; simpl; try done.
    destruct c; [done|]. destruct p; [|done]. simpl.
    destruct (process_line d raw) as [calls|] eqn:Hl; [|done].
    destruct (event_loop d rest) as [exit t']; simpl in *.
    rewrite List.filter_app, IH, app_nil_r.
    unfold process_line in Hl. repeat case_match; simplify_option_eq; try done.
    by repeat case_match; simplify_eq. }
  unfold supervise, cancel_in_loop, after_loop, probe_count.
  specialize (Hno (stdout W)).
  destruct (event_loop d (stdout W)) as [exit calls]; simpl in Hno.
  destruct exit; repeat case_match; simpl;
    rewrite ?List.filter_app, ?Hno; simpl; rewrite ?app_nil_r; try done.
  all: by repeat case_match.
Qed.

(** X1. A run of [convert_file] runs ffprobe at most once and starts ffmpeg
    at most once, and ffmpeg only after ffprobe; when ffprobe has not run,
    the job was skipped, lacked its tools, or [os.makedirs] raised. *)
Theorem convert_file_single_attempt (P : Platform) (G : Globals)
    (input_file : string) (W : Run) :
  let r := convert_file P G input_file W in
  (probe_count (trace r) ≤ 1)%nat
  ∧ (launch_count (trace r) ≤ probe_count (trace r))%nat
  ∧ (probe_count (trace r) = 0 →
       outcome r = ToolsMissing ∨ outcome r = SkippedNotAvi
       ∨ outcome r = SkippedMissing ∨ outcome r = Uncaught).
Proof.
  intros r. unfold r, convert_file.
  repeat case_match; simpl;
    rewrite ?supervise_probe_count, ?supervise_launch_count;
    unfold probe_count, launch_count; rewrite ?List.filter_app; simpl;
    repeat case_match; simpl; split_and!; try lia; intros; try lia; eauto.
Qed.





Lemma supervise_last (W : Run) (out_path : string) (d : Q) (t : list Action) :
  let r := supervise W out_path d t in
  match outcome r with
  | PausedForever => True
  | Completed => last (trace r) = Some (UiAfter 800 reset_ui)
  | _ => last (trace r) = Some (Ui reset_ui)
  end.
Proof.
  unfold supervise, cancel_in_loop, after_loop.
  destruct (event_loop d (stdout W)) as [exit calls].
  destruct exit; repeat case_match; simpl; try done.
  all: by rewrite last_app.
Qed.

(** X3. A job that has tried to start ffmpeg and returns ends by asking the
    Tk thread for [set_ui_state(status="Idle", progress=0,
    pause_btn_text="Pause")] (after 800 ms when it completed); run by the
    Tk thread, this call shows "Idle", 0 and "Pause" and sets
    [pause_event]. *)
Theorem job_ends_with_ui_reset (P : Platform) (G : Globals)
    (input_file : string) (W : Run) :
  let r := convert_file P G input_file W in
  launch_count (trace r) = 1 → outcome r ≠ PausedForever →
  last (trace r) = Some (match outcome r with
                         | Completed => UiAfter 800 reset_ui
                         | _ => Ui reset_ui
                         end)
  ∧ ∀ s, pause_event (run_call reset_ui s) = true
         ∧ widgets (run_call reset_ui s) = mkWidgets StIdle 0 "Pause".
Proof.
  intros r Hl Hp. split; [|done].
  destruct (popen_error W) as [e|] eqn:He.
  - unfold r in *. unfold convert_file in *. rewrite He in *.
    repeat case_match; simpl in *; try discriminate; try done;
      try (by rewrite last_app).
    all: unfold launch_count in Hl; rewrite ?List.filter_app in Hl;
      simpl in Hl; repeat case_match; simpl in Hl; discriminate.
  - assert (Hrun : reached_running (outcome r) = true)
      by (by apply reached_running_iff).
    destruct (convert_file_running _ _ _ _ Hrun) as (t & Heq & _).
    unfold r in *. rewrite Heq in *.
    pose proof (supervise_last W (out_path_of P G input_file)
                  (duration (get_file_info P (probe W))) t) as Hlast.
    simpl in Hlast.
    by destruct (outcome (supervise _ _ _ _)).
Qed.

(** A job cancelled in its loop ends with the reset. *)
Lemma job_ends_with_ui_reset_witness :
  let W := Sample.a_run (ProbeExited 0 (Some (Sample.probed "120.000000")))
             [Sample.half_way; TLine "out_time_ms=90000000" true true]
             0 false (Some 700%N) in
  last (trace (convert_file Sample.platform Sample.globals "movie.avi" W))
  = Some (Ui reset_ui).
Proof.
  intros W.
  destruct (job_ends_with_ui_reset Sample.platform Sample.globals "movie.avi" W)
    as [Hlast _]; [reflexivity|discriminate|exact Hlast].
Defined.

(** ** The event loop, line by line *)

(** The loop on two runs of lines, one after the other. *)
Lemma event_loop_app (d : Q) (pre post : list Tick) :
  event_loop d (pre ++ post) =
    match fst (event_loop d pre) with
    | ExitEof => (fst (event_loop d post),
                  snd (event_loop d pre) ++ snd (event_loop d post))
    | _ => event_loop d pre
    end.
Proof.
  induction pre as [|[raw c p|e] pre IH]; simpl.
  - by destruct (event_loop d post).
  - destruct c; [done|]. destruct p; [|done]. simpl.
    destruct (process_line d raw) as [calls|]; [|done].
    rewrite IH. destruct (event_loop d pre) as [exit t]; simpl.
    destruct exit; try done.
    destruct (event_loop d post) as [exit' t']; simpl. by rewrite app_assoc.
  - done.
Qed.

(** A line that reports no elapsed time posts nothing. *)
Lemma process_line_ignored (d : Q) (raw : string) :
  Py.startswith (Py.strip raw) "out_time_ms" = false
  ∨ (∃ v, Py.after_eq (Py.strip raw) = Some v
          ∧ Py.isdigit (Py.strip v) = false) →
  process_line d raw = Some [].
Proof.
  unfold process_line. intros [->|(v & -> & Hv)]; [done|].
  simpl. rewrite Hv. by case_match.
Qed.

Lemma event_loop_skip (d : Q) (pre post : list Tick) (raw : string) :
  process_line d raw = Some [] →
  event_loop d (pre ++ TLine raw false true :: post) = event_loop d (pre ++ post).
Proof.
  intros Hl. rewrite !event_loop_app. simpl. rewrite Hl. simpl.
  by destruct (event_loop d post).
Qed.

(** X4. A line of the child that does not begin with "out_time_ms", or
    whose value is not a string of digits ("out_time_ms=N/A"), read while
    the job is neither cancelled nor paused, changes nothing: the job
    leaves the trace, the outcome and the disk it leaves without it. *)
Theorem ignored_line_is_transparent (P : Platform) (G : Globals)
    (input_file : string) (W : Run) (pre post : list Tick) (raw : string) :
  Py.startswith (Py.strip raw) "out_time_ms" = false
  ∨ (∃ v, Py.after_eq (Py.strip raw) = Some v
          ∧ Py.isdigit (Py.strip v) = false) →
  stdout W = pre ++ TLine raw false true :: post →
  convert_file P G input_file W
  = convert_file P G input_file (with_stdout W (pre ++ post)).
Proof.
  intros Hraw Hout. unfold convert_file, supervise, with_stdout. simpl.
  rewrite Hout.
  by rewrite (event_loop_skip _ _ _ _ (process_line_ignored _ _ Hraw)).
Qed.

(** "progress=continue" and "out_time_ms=N/A" between two progress lines. *)
Lemma ignored_line_is_transparent_witness :
  let run lines := Sample.a_run (ProbeExited 0 (Some (Sample.probed "120.000000")))
                     lines 0 false (Some 700%N) in
  convert_file Sample.platform Sample.globals "movie.avi"
    (run [Sample.half_way; TLine "out_time_ms=N/A" false true; Sample.half_way])
  = convert_file Sample.platform Sample.globals "movie.avi"
      (run [Sample.half_way; Sample.half_way]).
Proof.
  intros run.
  apply (ignored_line_is_transparent Sample.platform Sample.globals "movie.avi"
           (run [Sample.half_way; TLine "out_time_ms=N/A" false true; Sample.half_way])
           [Sample.half_way] [Sample.half_way] "out_time_ms=N/A").
  - right. exists "N/A". split; reflexivity.
  - reflexivity.
Defined.

(** *** Stripping and reading numbers *)

Lemma append_cons (x : ascii) (a b : string) :
  String x a +:+ b = String x (a +:+ b).
Proof. reflexivity. Qed.

Lemma append_nil (b : string) : "" +:+ b = b.
Proof. reflexivity. Qed.





Lemma rstrip_fixed_app (s1 s2 : string) :
  Py.rstrip s2 = s2 → s2 ≠ "" → Py.rstrip (s1 +:+ s2) = s1 +:+ s2.
Proof.
  intros H2 Hne. induction s1 as [|c s1 IH]; [done|].
  rewrite append_cons. simpl. rewrite IH.
  destruct (s1 +:+ s2) eqn:Heq; [|done].
  destruct s1; [by rewrite append_nil in Heq|by rewrite append_cons in Heq].
Qed.

Lemma digit_not_space (c : ascii) : Py.is_digit c = true → Py.isspace c = false.
Proof.
  unfold Py.is_digit, Py.isspace.
  intros [H1 H2]%andb_true_iff. apply Nat.leb_le in H1, H2.
  apply orb_false_iff. split; apply andb_false_iff.
  - right. apply Nat.leb_gt. lia.
  - right. apply Nat.leb_gt. lia.
Qed.

Lemma rstrip_digits (val : string) :
  Py.all_digits val = true → Py.rstrip val = val.
Proof.
  induction val as [|c val IH]; simpl; [done|].
  intros [Hc Hv]%andb_true_iff. rewrite (IH Hv).
  destruct val; [|done]. by rewrite (digit_not_space _ Hc).
Qed.

Lemma strip_digits (val : string) :
  Py.isdigit val = true → Py.strip val = val.
Proof.
  destruct val as [|c val]; [done|]. simpl. intros Hd.
  unfold Py.strip. simpl.
  apply andb_true_iff in Hd as Hd'. destruct Hd' as [Hc _].
  rewrite (digit_not_space _ Hc). by apply rstrip_digits.
Qed.





(** X6. When a line read by the loop begins with "out_time_ms" and holds
    no "=", line 721 raises: the lines after it are not read, and the job
    ends as a failure (or as cancelled, when [cancel_event] is set at
    line 742) whatever the exit code of ffmpeg and the output it wrote. *)
Theorem progress_line_without_value_fails (P : Platform) (G : Globals)
    (input_file : string) (W : Run) (pre post : list Tick) (raw : string) :
  let r := convert_file P G input_file W in
  let d := duration (get_file_info P (probe W)) in
  reached_running (outcome r) = true →
  stdout W = pre ++ TLine raw false true :: post →
  fst (event_loop d pre) = ExitEof →
  Py.startswith (Py.strip raw) "out_time_ms" = true →
  Py.after_eq (Py.strip raw) = None →
  outcome r = (if cancel_after W then CancelledAfterLoop else FailedExit)
  ∧ r = convert_file P G input_file
          (with_stdout W (pre ++ [TLine raw false true])).
Proof.
  intros r d Hrun Hout Hpre Hsw Hae.
  assert (Hline : process_line d raw = None).
  { unfold process_line. by rewrite Hsw, Hae. }
  assert (Hloop : ∀ rest, event_loop d (pre ++ TLine raw false true :: rest)
                  = (ExitRaised "list index out of range", snd (event_loop d pre))).
  { intros rest. rewrite event_loop_app, Hpre. simpl. rewrite Hline. simpl.
    by rewrite app_nil_r. }
  destruct (convert_file_running _ _ _ _ Hrun) as (t & Heq & Hl & _).
  split_and!.
  - unfold r. rewrite Heq. unfold supervise. fold d. rewrite Hout, Hloop.
    unfold after_loop. simpl. by repeat case_match.
  - unfold r, convert_file, supervise, with_stdout. simpl. fold d.
    by rewrite Hout, !Hloop.
Qed.

(** ffmpeg exits with code 0 and leaves 700 bytes, but the second line is
    "out_time_ms": the job fails. *)
Lemma progress_line_without_value_fails_witness :
  let W := Sample.a_run (ProbeExited 0 (Some (Sample.probed "120.000000")))
             [Sample.half_way; TLine "out_time_ms" false true; Sample.half_way]
             0 false (Some 700%N) in
  outcome (convert_file Sample.platform Sample.globals "movie.avi" W)
  = FailedExit.
Proof.
  intros W.
  by destruct (progress_line_without_value_fails Sample.platform Sample.globals
                 "movie.avi" W [Sample.half_way] [Sample.half_way] "out_time_ms")
    as [Ho _].
Defined.

(** ** The buttons and the jobs *)

Lemma job_step_posts_text (j : nat) (a : Answer) (s s' : Shared) (b b' : Job) :
  job_step j a s b = Some (s', b') →
  Forall (λ jc, posts_pause_text (snd jc)) (posted s) →
  Forall (λ jc, posts_pause_text (snd jc)) (posted s').
Proof.
  unfold job_step, on_current.
  repeat case_match; intros; simplify_eq; simpl; try done;
    try (apply Forall_app; split; [done|]; by repeat constructor).
  (* a progress line *)
  apply Forall_app; split; [done|].
  match goal with H : process_line _ _ = Some _ |- _ =>
    unfold process_line in H; repeat case_match; simplify_option_eq;
    try (by repeat constructor)
  end.
  repeat case_match; simplify_eq; by repeat constructor.
Qed.

Lemma tk_set_ui_state_button (status : option Status) (progress : option Q)
    (text : option string) (s : Shared) :
  let s' := tk_set_ui_state status progress text s in
  match text with
  | Some t =>
      pause_btn (widgets s') = t
      ∧ (t = "Pause" → pause_event s' = true)
      ∧ (pause_event s = true → pause_event s' = true)
  | None =>
      pause_btn (widgets s') = pause_btn (widgets s)
      ∧ pause_event s' = pause_event s
  end.
Proof.
  unfold tk_set_ui_state, set_ui_state, sets_pause_event.
  destruct text as [t|]; simpl.
  - destruct (String.eqb_spec t "Pause") as [->|Hne]; simpl;
      repeat case_match; simpl; split_and!; try done.
  - by repeat case_match.
Qed.

Lemma step_button_inv (l : Label) (y y' : Sys) :
  step l y = Some y' → button_inv y → button_inv y'.
Proof.
  intros Hstep [Hposted Hbtn]. destruct l as [|j a| | |k]; simpl in Hstep.
  - by simplify_eq.
  - destruct (jobs y !! j) as [b|]; simpl in Hstep; [|done].
    destruct (job_step j a (shared y) b) as [[s' b']|] eqn:Hj;
      simpl in Hstep; [|done].
    simplify_eq. split; cbn [shared].
    + by eapply job_step_posts_text.
    + rewrite (job_step_widgets _ _ _ _ _ _ Hj).
      destruct (job_step_flags _ _ _ _ _ _ Hj) as (_ & Hp & _ & Hp').
      destruct Hbtn as [[Hb He]|Hb]; [left|by right]. split; [done|].
      destruct (pc b); first [by apply Hp' | by rewrite Hp].
  - simplify_eq. split; cbn [shared].
    + by rewrite (proj1 (tk_posted _)).
    + unfold pause_resume. case_match.
      * right. apply (tk_set_ui_state_button _ _ (Some "Resume")).
      * left. destruct (tk_set_ui_state_button None None (Some "Pause")
                 (on_current ByTk OpCont (set_pause_event true (shared y))))
          as (Hb & He & _). split; [done|]. by apply He.
  - simplify_eq. split; cbn [shared].
    + by rewrite (proj1 (proj2 (tk_posted _))).
    + unfold cancel.
      destruct (tk_set_ui_state_button (Some StCancelled) (Some 0%Q) None
                  (set_cancel_event true (shared y))) as [Hb He].
      rewrite Hb, He. done.
  - case_bool_decide; [done|].
    destruct (posted (shared y) !! k) as [[j c]|] eqn:Hk; simpl in Hstep; [|done].
    simplify_eq. split; cbn [shared].
    + by rewrite (proj2 (proj2 (tk_posted _))).
    + assert (Hc : posts_pause_text c).
      { rewrite Forall_forall in Hposted.
        apply (Hposted (j, c)). by eapply list_elem_of_lookup_2. }
      unfold run_call. destruct c as [| |status progress text| |]; try done.
      pose proof (tk_set_ui_state_button status progress text (shared y)) as Hset.
      cbn [mark_ran widgets pause_event].
      destruct text as [t|].
      * simpl in Hc. subst t. destruct Hset as (Hb & He & _). left. auto.
      * destruct Hset as [Hb He]. by rewrite Hb, He.
Qed.

Lemma run_button_inv (ls : list Label) (y y' : Sys) :
  run ls y = Some y' → button_inv y → button_inv y'.
Proof.
  revert y. induction ls as [|l ls IH]; simpl; intros y Hrun Hinv.
  - by simplify_eq.
  - destruct (step l y) as [y1|] eqn:Hs; simpl in Hrun; [|done].
    eapply IH; [done|]. by eapply step_button_inv.
Qed.

(** X7. In every state the program reaches, the Pause button reads
    "Pause" or "Resume"; when it reads "Pause", [pause_event] is set, so
    whenever the jobs are held at line 717 the button reads "Resume".
    The converse fails: a job started during a pause sets [pause_event]
    (line 589) while the button still reads "Resume". *)
Theorem pause_button_shows_held_jobs (ls : list Label) (y : Sys) :
  run ls init = Some y →
  (pause_btn (widgets (shared y)) = "Pause"
   ∨ pause_btn (widgets (shared y)) = "Resume")
  ∧ (pause_btn (widgets (shared y)) = "Pause" → pause_event (shared y) = true)
  ∧ (pause_event (shared y) = false →
       pause_btn (widgets (shared y)) = "Resume")
  ∧ (∃ y', run Sample_started_while_paused init = Some y'
           ∧ pause_btn (widgets (shared y')) = "Resume"
           ∧ pause_event (shared y') = true).
Proof.
  intros Hrun.
  assert (Hinit : button_inv init) by (split; [constructor|by left]).
  destruct (run_button_inv _ _ _ Hrun Hinit) as [_ Hbtn].
  split_and!.
  - destruct Hbtn as [[? ?]|?]; auto.
  - destruct Hbtn as [[? ?]|Hr]; [done|]. rewrite Hr. discriminate.
  - destruct Hbtn as [[? He]|?]; [|done]. rewrite He. discriminate.
  - eexists. split; [reflexivity|]. split; reflexivity.
Qed.

(** After Pause is pressed on a running job, the button reads "Resume". *)
Lemma pause_button_shows_held_jobs_witness :
  match run Sample.paused_then_cancelled init with
  | Some y => pause_btn (widgets (shared y)) = "Resume"
  | None => False
  end.
Proof.
  pose proof (pause_button_shows_held_jobs Sample.paused_then_cancelled) as H.
  destruct (run Sample.paused_then_cancelled init) as [y|] eqn:Hrun.
  - apply (H y eq_refl). vm_compute in Hrun. by simplify_eq.
  - vm_compute in Hrun. discriminate Hrun.
Defined.

Lemma tk_cancel_event (s : Shared) :
  (cancel_event s = true → cancel_event (pause_resume s) = true)
  ∧ cancel_event (cancel s) = true
  ∧ ∀ c k, cancel_event (mark_ran k (run_call c s)) = cancel_event s.
Proof.
  unfold pause_resume, cancel, run_call, tk_set_ui_state, on_current.
  split_and!; intros; repeat case_match; simpl in *; simplify_eq; eauto.
Qed.

(** A step of a job, with [cancel_event] set. *)
Lemma job_step_cancelled (j : nat) (a : Answer) (s s' : Shared) (b b' : Job) :
  job_step j a s b = Some (s', b') →
  cancel_event s = true →
  (pc b ≠ PcClear → cancel_event s' = true)
  ∧ pc b' ≠ PcClear
  ∧ (running_or_cancelled (pc b) = true → running_or_cancelled (pc b') = true).
Proof.
  unfold job_step, on_current. intros Hstep Hc.
  repeat case_match; simplify_eq; simpl; split_and!; try done; congruence.
Qed.

Lemma step_cancelled (l : Label) (y y' : Sys) (j : nat) (b : Job) :
  is_start l = false →
  step l y = Some y' →
  cancel_event (shared y) = true →
  Forall (λ b0, pc b0 ≠ PcClear) (jobs y) →
  jobs y !! j = Some b → running_or_cancelled (pc b) = true →
  cancel_event (shared y') = true
  ∧ Forall (λ b0, pc b0 ≠ PcClear) (jobs y')
  ∧ ∃ b', jobs y' !! j = Some b' ∧ running_or_cancelled (pc b') = true.
Proof.
  intros Hl Hstep Hc Hall Hb Hr.
  destruct (tk_cancel_event (shared y)) as (Hpr & Hca & Hrun).
  destruct l as [|j' a| | |k]; simpl in Hstep; try done.
  - destruct (jobs y !! j') as [b0|] eqn:Hb0; simpl in Hstep; [|done].
    destruct (job_step j' a (shared y) b0) as [[s' b0']|] eqn:Hj;
      simpl in Hstep; [|done].
    simplify_eq. cbn [shared jobs].
    destruct (job_step_cancelled _ _ _ _ _ _ Hj Hc) as (Hc' & Hpc & Hr').
    assert (Hb0pc : pc b0 ≠ PcClear).
    { rewrite Forall_forall in Hall. apply Hall. by eapply list_elem_of_lookup_2. }
    split_and!.
    + by apply Hc'.
    + apply Forall_insert; [done|]. exact Hpc.
    + destruct (decide (j' = j)) as [->|Hne].
      * simplify_eq. exists b0'.
        rewrite list_lookup_insert_eq by (by eapply lookup_lt_Some). auto.
      * exists b. by rewrite list_lookup_insert_ne.
  - simplify_eq. cbn [shared jobs]. split_and!; [by apply Hpr|done|eauto].
  - simplify_eq. cbn [shared jobs]. split_and!; [done|done|eauto].
  - case_bool_decide; [done|].
    destruct (posted (shared y) !! k) as [[j0 c]|]; simpl in Hstep; [|done].
    simplify_eq. cbn [shared jobs]. rewrite Hrun. split_and!; [done|done|eauto].
Qed.

(** X8. Once [cancel_event] is set and as long as no new job is started,
    the flag stays set, and a job that has started ffmpeg and has not
    returned can only return cancelled: it never completes and never
    reports a failure. *)
Theorem cancelled_job_only_ends_cancelled (ls : list Label) (y y' : Sys)
    (j : nat) (b : Job) :
  cancel_event (shared y) = true →
  Forall (λ b0, pc b0 ≠ PcClear) (jobs y) →
  jobs y !! j = Some b → running_or_cancelled (pc b) = true →
  existsb is_start ls = false →
  run ls y = Some y' →
  cancel_event (shared y') = true
  ∧ ∃ b', jobs y' !! j = Some b'
          ∧ ∀ o, pc b' = PcReturned o →
                 o = CancelledInLoop ∨ o = CancelledAfterLoop.
Proof.
  intros Hc Hall Hb Hr Hns Hrun.
  assert (Hgoal : cancel_event (shared y') = true
                  ∧ ∃ b', jobs y' !! j = Some b'
                          ∧ running_or_cancelled (pc b') = true).
  { revert y b Hc Hall Hb Hr Hrun.
    induction ls as [|l ls IH]; simpl; intros y b Hc Hall Hb Hr Hrun.
    - simplify_eq. eauto.
    - apply orb_false_iff in Hns as [Hl Hns].
      destruct (step l y) as [y1|] eqn:Hs; simpl in Hrun; [|done].
      destruct (step_cancelled _ _ _ _ _ Hl Hs Hc Hall Hb Hr)
        as (Hc1 & Hall1 & b1 & Hb1 & Hr1).
      by apply (IH Hns y1 b1). }
  destruct Hgoal as (Hc' & b' & Hb' & Hr'). split; [done|].
  exists b'. split; [done|]. intros o Ho. rewrite Ho in Hr'. simpl in Hr'.
  destruct o; try discriminate; auto.
Qed.

(** One job, cancelled while it waits for its first line: it returns
    cancelled. *)
Lemma cancelled_job_only_ends_cancelled_witness :
  match run (firstn 8 Sample.one_job_cancelled) init with
  | Some y =>
      match run (skipn 8 Sample.one_job_cancelled) y with
      | Some y' => (pc <$> jobs y' !! 0) = Some (PcReturned CancelledInLoop)
      | None => False
      end
  | None => False
  end.
Proof.
  destruct (run (firstn 8 Sample.one_job_cancelled) init) as [y|] eqn:Hy;
    [|vm_compute in Hy; discriminate Hy].
  assert (Hy' : y = mkSys (shared y) (jobs y)) by (by destruct y).
  vm_compute in Hy. injection Hy as <-.
  match goal with |- match run ?ls ?y0 with _ => _ end =>
    pose proof (cancelled_job_only_ends_cancelled ls y0) as H;
    destruct (run ls y0) as [y'|] eqn:Hrun
  end.
  - destruct (H y' 0 (mkJob PcRead 120 (Some 0) (Some 0)))
      as (_ & b' & Hb' & Ho); try reflexivity.
    + repeat constructor. discriminate.
    + vm_compute in Hrun. injection Hrun as <-. reflexivity.
  - vm_compute in Hrun. discriminate Hrun.
Defined.

Lemma posted_by_app (j j' : nat) (s s' : Shared) (calls : list UiCall) :
  posted s' = posted s ++ ((λ c, (j', c)) <$> calls) →
  posted_by j s' = posted_by j s ++ (if (j' =? j)%nat then calls else []).
Proof.
  intros Hp. unfold posted_by. rewrite Hp, omap_app. f_equal. clear Hp.
  destruct (j' =? j)%nat eqn:Hj;
    induction calls as [|c calls IH]; simpl; try done.
  - rewrite Hj. f_equal. exact IH.
  - rewrite Hj. exact IH.
Qed.

Lemma step_holds_line (l : Label) (y y' : Sys) (j : nat) (d : Q)
    (raw : string) (base : list UiCall) (calls : list Action) :
  process_line d raw = Some calls →
  step l y = Some y' →
  holds_line j d raw base calls y → holds_line j d raw base calls y'.
Proof.
  intros Hline Hstep (b & Hb & Hcase).
  destruct (tk_posted (shared y)) as (Hpr & Hca & Hrun).
  assert (Hsame : ∀ s', posted s' = posted (shared y) →
            holds_line j d raw base calls (mkSys s' (jobs y))).
  { intros s' Hs'. exists b. split; [done|]. unfold posted_by in *.
    cbn [shared]. by rewrite Hs'. }
  destruct l as [|j' a| | |k]; simpl in Hstep.
  - simplify_eq. exists b. split; [|done]. by apply lookup_app_l_Some.
  - destruct (jobs y !! j') as [b0|] eqn:Hb0; simpl in Hstep; [|done].
    destruct (job_step j' a (shared y) b0) as [[s' b0']|] eqn:Hj;
      simpl in Hstep; [|done].
    simplify_eq.
    destruct (job_step_posted _ _ _ _ _ _ Hj) as (posts & Hposted & _).
    pose proof (posted_by_app j j' _ _ _ Hposted) as Hby.
    destruct (decide (j' = j)) as [->|Hne].
    + simplify_eq. exists b0'. cbn [shared jobs].
      rewrite list_lookup_insert_eq by (by eapply lookup_lt_Some).
      split; [done|]. rewrite Nat.eqb_refl in Hby.
      destruct Hcase as [([Hpc|Hpc] & Hd & Hbase)|(more & Hmore)].
      * (* at the wait: released, with nothing posted *)
        left. unfold job_step in Hj. rewrite Hpc in Hj.
        destruct (pause_event (shared y)); [|done]. simplify_eq.
        split_and!; [by right|done|done].
      * (* the line is processed: its calls are posted *)
        right. exists []. unfold job_step in Hj. rewrite Hpc, Hd, Hline in Hj.
        simplify_eq. unfold posted_by. cbn [posted post].
        rewrite omap_app. f_equal. rewrite app_nil_r.
        clear. induction (ui_calls calls) as [|c l IH]; simpl; [done|].
        rewrite Nat.eqb_refl. by f_equal.
      * right. exists (more ++ posts). rewrite Hby, Hmore.
        by rewrite <- !app_assoc.
    + exists b. cbn [shared jobs]. rewrite list_lookup_insert_ne by done.
      split; [done|]. apply Nat.eqb_neq in Hne. rewrite Hne, app_nil_r in Hby.
      by rewrite Hby.
  - simplify_eq. by apply Hsame.
  - simplify_eq. by apply Hsame.
  - case_bool_decide; [done|].
    destruct (posted (shared y) !! k) as [[j0 c]|]; simpl in Hstep; [|done].
    simplify_eq. by apply Hsame.
Qed.

(** X9. Pausing loses no line.  A job held at line 717 with a progress
    line in hand posts nothing as long as it is held; whatever the other
    threads do, the next calls it posts are those of that line. *)
Theorem paused_line_is_not_lost (ls : list Label) (y y' : Sys) (j : nat)
    (b : Job) (raw : string) (calls : list Action) :
  jobs y !! j = Some b → pc b = PcPauseWait raw →
  process_line (job_duration b) raw = Some calls →
  run ls y = Some y' →
  ∃ b', jobs y' !! j = Some b'
        ∧ (((pc b' = PcPauseWait raw ∨ pc b' = PcLine raw)
            ∧ posted_by j (shared y') = posted_by j (shared y))
           ∨ ∃ more, posted_by j (shared y')
                     = posted_by j (shared y) ++ ui_calls calls ++ more).
Proof.
  intros Hb Hpc Hline Hrun.
  assert (Hinv : holds_line j (job_duration b) raw (posted_by j (shared y))
                   calls y').
  { assert (H0 : holds_line j (job_duration b) raw (posted_by j (shared y))
                   calls y) by (exists b; auto).
    revert Hrun H0. generalize (posted_by j (shared y)) as base.
    clear Hb Hpc. revert y.
    induction ls as [|l ls IH]; simpl; intros y base Hrun H0.
    - by simplify_eq.
    - destruct (step l y) as [y1|] eqn:Hs; simpl in Hrun; [|done].
      eapply IH; [done|]. by eapply step_holds_line. }
  destruct Hinv as (b' & Hb' & [(Hpc' & _ & Hbase)|Hmore]); eauto.
Qed.

(** A job paused, cancelled, then resumed while it holds a line: it posts
    the two calls of the line before it sees the cancellation. *)
Lemma paused_line_is_not_lost_witness :
  match run (firstn 9 Sample.paused_then_cancelled) init with
  | Some y =>
      match run [PressPause; PressCancel; PressPause;
                 Step 0 (Sample.sample_answer GotEof);
                 Step 0 (Sample.sample_answer GotEof)] y with
      | Some y' =>
          posted_by 0 (shared y')
          = posted_by 0 (shared y)
            ++ ui_calls (progress_calls (percent (out_time_of "60000000") 120))
      | None => False
      end
  | None => False
  end.
Proof.
  pose proof (paused_line_is_not_lost
                [PressPause; PressCancel; PressPause;
                 Step 0 (Sample.sample_answer GotEof);
                 Step 0 (Sample.sample_answer GotEof)]) as H.
  destruct (run (firstn 9 Sample.paused_then_cancelled) init) as [y|] eqn:Hy;
    [|vm_compute in Hy; discriminate Hy].
  vm_compute in Hy. injection Hy as <-.
  match goal with |- match run ?ls ?y0 with _ => _ end =>
    destruct (run ls y0) as [y'|] eqn:Hrun
  end; [|vm_compute in Hrun; discriminate Hrun].
  match type of Hrun with run _ ?y0 = _ =>
    destruct (H y0 y' 0
                (mkJob (PcPauseWait "out_time_ms=60000000") 120 (Some 0) (Some 0))
                "out_time_ms=60000000"
                (progress_calls (percent (out_time_of "60000000") 120))
                eq_refl eq_refl eq_refl Hrun) as (b' & _ & _)
  end.
  vm_compute in Hrun. injection Hrun as <-. reflexivity.
Defined.


(** ** Start-up *)

Lemma resolve_loop_spec (H : Host)
    (cs : list (option string * option string * string)) :
  (∃ before ff fp src after,
      cs = before ++ (Some ff, Some fp, src) :: after
      ∧ resolve_loop H cs = (Some ff, Some fp)
      ∧ ff ≠ "" ∧ fp ≠ ""
      ∧ isfile H ff = true ∧ isfile H fp = true
      ∧ Py.endswith (Py.lower ff) ".exe" = true
      ∧ Py.endswith (Py.lower fp) ".exe" = true
      ∧ Forall (λ c, _is_exe H c.1.1 && _is_exe H c.1.2 = false) before)
  ∨ (resolve_loop H cs = (None, None)
     ∧ Forall (λ c, _is_exe H c.1.1 && _is_exe H c.1.2 = false) cs).
Proof.
  induction cs as [|[[ff fp] src] rest IH]; simpl.
  - right. by split.
  - destruct (_is_exe H ff && _is_exe H fp) eqn:Hc.
    + left. apply andb_true_iff in Hc as [Hf Hp].
      destruct ff as [ff|]; [|done]. destruct fp as [fp|]; [|done].
      simpl in Hf, Hp.
      apply andb_true_iff in Hf as [[Hf1 Hf2]%andb_true_iff Hf3].
      apply andb_true_iff in Hp as [[Hp1 Hp2]%andb_true_iff Hp3].
      exists [], ff, fp, src, rest. split_and!; try done.
      * intros ->. done.
      * intros ->. done.
    + destruct IH as [(before & a & b & s & after & -> & Hr & ?)|[Hr Hall]].
      * left. exists ((ff, fp, src) :: before), a, b, s, after.
        split_and!; try tauto. constructor; [done|tauto].
      * right. split; [done|]. by constructor.
Qed.

Lemma resolve_spec (P : Platform) (H : Host) :
  (∃ before ff fp src after,
      candidates P H = before ++ (Some ff, Some fp, src) :: after
      ∧ resolve_ffmpeg_paths_once P H = (Some ff, Some fp, true)
      ∧ ff ≠ "" ∧ fp ≠ ""
      ∧ isfile H ff = true ∧ isfile H fp = true
      ∧ Py.endswith (Py.lower ff) ".exe" = true
      ∧ Py.endswith (Py.lower fp) ".exe" = true
      ∧ Forall (λ c, _is_exe H c.1.1 && _is_exe H c.1.2 = false) before)
  ∨ (resolve_ffmpeg_paths_once P H = (None, None, false)
     ∧ Forall (λ c, _is_exe H c.1.1 && _is_exe H c.1.2 = false)
         (candidates P H)).
Proof.
  unfold resolve_ffmpeg_paths_once.
  destruct (resolve_loop_spec H (candidates P H))
    as [(before & ff & fp & src & after & Hc & -> & Hf & Hp & ?)|[-> Hall]].
  - left. exists before, ff, fp, src, after. split; [done|].
    simpl. pose proof Hf as Hf'. pose proof Hp as Hp'.
    apply String.eqb_neq in Hf', Hp'. rewrite Hf', Hp'. simpl. tauto.
  - right. by split.
Qed.

Lemma resolve_true (P : Platform) (H : Host) (ff fp : option string) :
  resolve_ffmpeg_paths_once P H = (ff, fp, true) →
  ∃ a b, ff = Some a ∧ fp = Some b
         ∧ _is_exe H ff = true ∧ _is_exe H fp = true.
Proof.
  destruct (resolve_spec P H)
    as [(before & a & b & src & after & _ & -> & Ha0 & Hb0 & Ha & Hb & Ha' & Hb' & _)
       |[-> _]]; [|done].
  intros [= <- <-]. exists a, b. apply String.eqb_neq in Ha0, Hb0.
  split_and!; try done; simpl; by rewrite ?Ha0, ?Hb0, ?Ha, ?Hb.
Qed.

(** X11. [resolve_ffmpeg_paths_once] takes the two tools from the first
    of the three places (folder of the program, [BIN_DIR], PATH) that holds
    both of them as files whose names end in ".exe" (letter case ignored),
    never one tool from one place and one from another; when no place holds
    both, it leaves both globals [None] and returns [False], whatever tool
    is present alone. *)
Theorem resolve_takes_first_complete_pair (P : Platform) (H : Host) :
  (∃ before ff fp src after,
      candidates P H = before ++ (Some ff, Some fp, src) :: after
      ∧ resolve_ffmpeg_paths_once P H = (Some ff, Some fp, true)
      ∧ isfile H ff = true ∧ isfile H fp = true
      ∧ Py.endswith (Py.lower ff) ".exe" = true
      ∧ Py.endswith (Py.lower fp) ".exe" = true
      ∧ Forall (λ c, _is_exe H c.1.1 && _is_exe H c.1.2 = false) before)
  ∨ (resolve_ffmpeg_paths_once P H = (None, None, false)
     ∧ Forall (λ c, _is_exe H c.1.1 && _is_exe H c.1.2 = false)
         (candidates P H)).
Proof.
  destruct (resolve_spec P H)
    as [(before & ff & fp & src & after & ? & ? & _ & _ & ?)|?]; [left|by right].
  by exists before, ff, fp, src, after.
Qed.

(** Membership in a list written out. *)
Ltac in_list :=
  simpl; rewrite ?elem_of_app, ?elem_of_cons, ?elem_of_nil; intuition congruence.

Lemma ensure_returns (P : Platform) (B : Boot) (t : list BootEvent)
    (ff fp : option string) :
  ensure_ffmpeg_or_quit P B = (t, EnsuredTrue ff fp) →
  (t = [] ∧ resolve_ffmpeg_paths_once P (host_at_start B) = (ff, fp, true))
  ∨ (t = [AskDownload; DownloadTools]
     ∧ snd (resolve_ffmpeg_paths_once P (host_at_start B)) = false
     ∧ askyesno B = true
     ∧ download_and_install_ffmpeg P (download B) = Some true
     ∧ resolve_ffmpeg_paths_once P (host_after_download B) = (ff, fp, true)).
Proof.
  unfold ensure_ffmpeg_or_quit.
  destruct (resolve_ffmpeg_paths_once P (host_at_start B)) as [[a b] []]; simpl.
  { intros [= <- <- <-]. by left. }
  destruct (askyesno B); simpl; [|done].
  destruct (download_and_install_ffmpeg P (download B)) as [[]|]; simpl; try done.
  destruct (resolve_ffmpeg_paths_once P (host_after_download B)) as [[a' b'] []];
    simpl; [|done].
  intros [= <- <- <-]. by right.
Qed.

(** X12. [ensure_ffmpeg_or_quit] shows no dialog when the tools are found
    at once; it downloads only after the tools were not found and the user
    answered yes; it returns only with both [FFMPEG_PATH] and
    [FFPROBE_PATH] set to files ending in ".exe", found on the machine as
    it was at start-up or as the download left it; in every other case the
    program leaves. *)
Theorem ensure_ffmpeg_or_quit_returns_with_tools (P : Platform) (B : Boot) :
  let r := ensure_ffmpeg_or_quit P B in
  (snd (resolve_ffmpeg_paths_once P (host_at_start B)) = true → fst r = [])
  ∧ (DownloadTools ∈ fst r →
       snd (resolve_ffmpeg_paths_once P (host_at_start B)) = false
       ∧ askyesno B = true)
  ∧ (∀ ff fp, snd r = EnsuredTrue ff fp →
       ∃ a b H, ff = Some a ∧ fp = Some b
         ∧ (H = host_at_start B
            ∨ (H = host_after_download B
               ∧ download_and_install_ffmpeg P (download B) = Some true))
         ∧ _is_exe H ff = true ∧ _is_exe H fp = true)
  ∧ (snd r = SysExit → DestroyRoot ∈ fst r).
Proof.
  intros r. split_and!.
  - unfold r, ensure_ffmpeg_or_quit.
    destruct (resolve_ffmpeg_paths_once P (host_at_start B)) as [[a b] []];
      simpl; done.
  - unfold r, ensure_ffmpeg_or_quit.
    destruct (resolve_ffmpeg_paths_once P (host_at_start B)) as [[a b] []];
      simpl; [in_list|].
    destruct (askyesno B); simpl; [done|in_list].
  - intros ff fp Hr. destruct r as [t e] eqn:Hre. simpl in Hr. subst e.
    apply ensure_returns in Hre
      as [[_ Hres]|(_ & _ & _ & Hd & Hres)];
      destruct (resolve_true _ _ _ _ Hres) as (a & b & -> & -> & Ha & Hb).
    + exists a, b, (host_at_start B). split_and!; auto.
    + exists a, b, (host_after_download B). split_and!; auto.
  - unfold r, ensure_ffmpeg_or_quit.
    destruct (resolve_ffmpeg_paths_once P (host_at_start B)) as [[a b] []];
      simpl; [done|].
    destruct (askyesno B); simpl; [|in_list].
    destruct (download_and_install_ffmpeg P (download B)) as [[]|]; simpl;
      try done; [|in_list].
    destruct (resolve_ffmpeg_paths_once P (host_after_download B)) as [[a' b'] []];
      simpl; [done|in_list].
Qed.

Lemma startup_globals (P : Platform) (B : Boot) (G : Globals) :
  snd (startup P B) = Some G →
  tools_resolved G
  ∧ (∃ ff, ENCODERS G = detect_encoders_once ff (test_run B))
  ∧ has_key (ENCODERS G) (encode_w G) = true.
Proof.
  unfold startup.
  destruct (ensure_ffmpeg_or_quit P B) as [t [| |ff fp]] eqn:He; simpl; try done.
  apply ensure_returns in He.
  assert (∃ a b, ff = Some a ∧ fp = Some b) as (a & b & -> & ->).
  { destruct He as [[_ Hr]|(_ & _ & _ & _ & Hr)];
      destruct (resolve_true _ _ _ _ Hr) as (a & b & ? & ? & _); eauto. }
  set (E := detect_encoders_once (Some a) (test_run B)).
  destruct (has_key E (refresh_encoder_dropdown E (refresh_ok B) (settings_encoder B)))
    eqn:Hk; simpl; intros [= <-]; simpl.
  - split_and!; [split; eauto| eauto | done].
  - split_and!; [split; eauto| eauto |].
    apply has_key_true. apply auto_best_encoder_detected.
Qed.

Lemma process_line_no_save (d : Q) (raw : string) (calls : list Action) :
  process_line d raw = Some calls → List.filter is_save_settings calls = [].
Proof.
  unfold process_line. repeat case_match; intros; simplify_option_eq; try done.
  by repeat case_match; simplify_eq.
Qed.

Lemma event_loop_no_save (d : Q) (ticks : list Tick) :
  List.filter is_save_settings (snd (event_loop d ticks)) = [].
Proof.
  induction ticks as [|[raw c p|e] rest IH]; simpl; try done.
  destruct c; [done|]. destruct p; [|done]. simpl.
  destruct (process_line d raw) as [calls|] eqn:Hl; [|done].
  destruct (event_loop d rest) as [exit t]; simpl in *.
  by rewrite List.filter_app, (process_line_no_save _ _ _ Hl), IH.
Qed.

Lemma supervise_no_save (W : Run) (out_path : string) (d : Q)
    (t : list Action) :
  List.filter is_save_settings (trace (supervise W out_path d t))
  = List.filter is_save_settings t.
Proof.
  unfold supervise, cancel_in_loop, after_loop.
  pose proof (event_loop_no_save d (stdout W)) as Hno.
  destruct (event_loop d (stdout W)) as [exit calls]; simpl in Hno.
  destruct exit; repeat case_match; simpl;
    rewrite ?List.filter_app, ?Hno; simpl; rewrite ?app_nil_r; try done.
Qed.

Lemma filter_nil_not_elem (t : list Action) :
  List.filter is_save_settings t = [] → Ui UiSaveSettings ∉ t.
Proof.
  induction t as [|a t IH]; simpl; [intros _; apply not_elem_of_nil|].
  destruct (is_save_settings a) eqn:Ha; [done|].
  intros Ht [<-|Hin]%elem_of_cons; [done|]. by apply IH.
Qed.

(** X13. Once start-up has returned, whatever folder the user picks and
    whatever encoder of the list they select, a job never ends with
    "FFmpeg/FFprobe not found", never has to switch encoder (it posts no
    [save_settings]), always builds its command, and is left by an
    exception only when the output folder cannot be created. *)
Theorem after_startup_jobs_are_equipped (P : Platform) (B : Boot) (G : Globals)
    (folder selected input_file : string) (W : Run) :
  snd (startup P B) = Some G →
  has_key (ENCODERS G) selected = true →
  let r := convert_file P (with_choices G folder selected) input_file W in
  has_key (ENCODERS G) (encode_w G) = true
  ∧ outcome r ≠ ToolsMissing
  ∧ (Ui UiSaveSettings ∉ trace r)
  ∧ (outcome r = Uncaught → makedirs_ok W = false).
Proof.
  intros HG Hsel r.
  destruct (startup_globals _ _ _ HG) as ([[a Ha] [b Hb]] & [ff HE] & Hk).
  split; [done|].
  assert (Hv : ∀ v, is_Some (video_args (ENCODERS G) v selected)).
  { intros v. unfold video_args. destruct (safe_copy v selected); [by eexists|].
    apply has_key_true in Hsel as [enc ->]. by eexists. }
  unfold r, convert_file, with_choices, build_cmd, choose_encoder. simpl.
  rewrite Ha, Hb, Hsel.
  destruct (Hv (video (get_file_info P (probe W)))) as [vargs ->]. simpl.
  repeat case_match; simpl; split_and!; try done.
  all: try (apply filter_nil_not_elem; rewrite ?supervise_no_save;
            rewrite ?List.filter_app; simpl; by repeat case_match).
  all: try (by rewrite negb_true_iff in *).
  all: intros Ho; exfalso; revert Ho;
    match goal with |- outcome (supervise ?W ?o ?d ?t) = _ → _ =>
      pose proof (supervise_outcome W o d t) as Hs;
      destruct (outcome (supervise W o d t)); done end.
Qed.

(** With the tools in the folder of the program and "NVENC" saved in the
    settings but no hardware encoder working, a job on "movie.avi" runs
    with the "CPU" encoder. *)
Lemma after_startup_jobs_are_equipped_witness :
  ∃ G, snd (startup Sample.platform Sample_boot) = Some G
       ∧ encode_w G = "CPU"
       ∧ outcome (convert_file Sample.platform (with_choices G "out" "CPU")
                    "movie.avi"
                    (Sample.a_run (ProbeExited 0 (Some (Sample.probed "120.000000")))
                       [Sample.half_way] 0 false (Some 700%N)))
         ≠ ToolsMissing.
Proof.
  eexists. split; [reflexivity|]. split; [reflexivity|].
  eapply (after_startup_jobs_are_equipped Sample.platform Sample_boot _
            "out" "CPU" "movie.avi"); reflexivity.
Defined.

(** ** The search of the downloaded archive *)

Lemma lower_names_snoc (files : list string) (x : string) :
  lower_names (files ++ [x]) = <[Py.lower x := x]> (lower_names files).
Proof. unfold lower_names. by rewrite foldl_app. Qed.

Lemma lower_names_lookup (files : list string) (k x : string) :
  lower_names files !! k = Some x ↔ last_named files k x.
Proof.
  revert x. induction files as [|z files IH] using rev_ind; intros x.
  - unfold lower_names, last_named. simpl. rewrite lookup_empty. split; [done|].
    intros (before & after & Hnil & _). by destruct before.
  - rewrite lower_names_snoc. destruct (decide (Py.lower z = k)) as [Hz|Hz].
    + rewrite Hz, lookup_insert_eq. split.
      * intros [= <-]. exists files, []. split_and!; auto.
      * intros (before & after & Heq & Hx & Hall).
        destruct after as [|y after _] using rev_ind.
        -- apply app_inj_tail in Heq as [_ ->]. done.
        -- rewrite app_comm_cons, app_assoc in Heq.
           apply app_inj_tail in Heq as [_ ->].
           apply Forall_app in Hall as [_ Hy]. by inversion Hy.
    + rewrite lookup_insert_ne by done. rewrite IH. split.
      * intros (before & after & -> & Hx & Hall).
        exists before, (after ++ [z]). rewrite <- app_assoc. split_and!; auto.
        apply Forall_app. split; [done|]. by constructor.
      * intros (before & after & Heq & Hx & Hall).
        destruct after as [|y after _] using rev_ind.
        -- apply app_inj_tail in Heq as [_ ->]. done.
        -- rewrite app_comm_cons, app_assoc in Heq.
           apply app_inj_tail in Heq as [-> ->].
           apply Forall_app in Hall as [Hall _]. by exists before, after.
Qed.

Lemma last_named_exists (files : list string) (k : string) :
  (∃ x, x ∈ files ∧ Py.lower x = k) → ∃ x, last_named files k x.
Proof.
  induction files as [|z files IH] using rev_ind.
  - intros (x & Hx & _). by apply elem_of_nil in Hx.
  - intros (x & Hx & Hk). destruct (decide (Py.lower z = k)) as [Hz|Hz].
    + exists z, files, []. split_and!; auto.
    + apply elem_of_app in Hx as [Hx|Hx%list_elem_of_singleton]; [|by subst].
      destruct IH as (x' & before & after & -> & Hx' & Hall); [by eauto|].
      exists x', before, (after ++ [z]). rewrite <- app_assoc. split_and!; auto.
      apply Forall_app. split; [done|]. by constructor.
Qed.

Lemma last_named_elem (files : list string) (k x : string) :
  last_named files k x → x ∈ files ∧ Py.lower x = k.
Proof.
  intros (before & after & -> & Hx & _). split; [|done].
  apply elem_of_app. right. by left.
Qed.

(** X14. The search of the downloaded archive takes the two tools from
    the first folder of the listing that holds both "ffmpeg.exe" and
    "ffprobe.exe", letter case ignored, both from that folder; of several
    names that differ only in case it takes the last listed; when no folder
    holds both, nothing is found (and nothing is installed). *)
Theorem find_tools_first_folder_with_both (P : Platform)
    (walk : list (string * list string)) :
  (∃ before root_dir files a b after,
      walk = before ++ (root_dir, files) :: after
      ∧ find_tools P walk
        = (Some (path_join P root_dir a), Some (path_join P root_dir b))
      ∧ last_named files "ffmpeg.exe" a
      ∧ last_named files "ffprobe.exe" b
      ∧ Forall (λ d, ¬ holds_both d.2) before)
  ∨ (find_tools P walk = (None, None)
     ∧ Forall (λ d, ¬ holds_both d.2) walk
     ∧ ∀ D, extracted D = Some walk →
            download_and_install_ffmpeg P D ≠ Some true).
Proof.
  induction walk as [|[root_dir files] rest IH]; simpl.
  - right. split_and!; [done|done|].
    intros D HD. unfold download_and_install_ffmpeg. rewrite HD. simpl.
    by destruct (bin_dir_ok D).
  - destruct (lower_names files !! "ffmpeg.exe") as [a|] eqn:Ha;
      [destruct (lower_names files !! "ffprobe.exe") as [b|] eqn:Hb|].
    { left. exists [], root_dir, files, a, b, rest.
      apply lower_names_lookup in Ha, Hb. split_and!; auto. }
    all: assert (Hno : ¬ holds_both files)
      by (intros [H1 H2]; apply last_named_exists in H1 as [x Hx];
          apply last_named_exists in H2 as [y Hy];
          apply lower_names_lookup in Hx, Hy; congruence).
    all: destruct IH as [(before & r & fs & a' & b' & after & -> & Hf & ? & ? & ?)
                        |(Hf & Hall & HD)].
    all: try (left; exists ((root_dir, files) :: before), r, fs, a', b', after;
              split_and!; auto; by constructor).
    all: right; split_and!; [done|by constructor|].
    all: intros D HD'; unfold download_and_install_ffmpeg; rewrite HD'; simpl;
      rewrite ?Ha, ?Hb, Hf; simpl; by destruct (bin_dir_ok D).
Qed.

(** ** The stderr drain *)

Lemma deque_append_last_n (n : nat) (l : list string) (x : string) :
  (0 < n)%nat →
  deque_append n (last_n n l) x = last_n n (l ++ [x]).
Proof.
  intros Hn. unfold deque_append, last_n.
  rewrite length_drop, length_app. simpl.
  destruct (Nat.ltb_spec (length l - (length l - n)) n) as [Hlt|Hge].
  - assert (Hl : (length l < n)%nat) by lia.
    replace (length l - n)%nat with 0%nat by lia.
    replace (length l + 1 - n)%nat with 0%nat by lia. done.
  - assert (Hl : (n ≤ length l)%nat) by lia.
    rewrite drop_drop.
    replace (length l + 1 - n)%nat with (length l - n + 1)%nat by lia.
    rewrite drop_app_le by lia. done.
Qed.

Lemma kept_lines_cons (line : string) (rest : list string) :
  kept_lines (line :: rest) =
    if negb (String.eqb (Py.rstrip line) "")
    then Py.rstrip line :: kept_lines rest else kept_lines rest.
Proof. unfold kept_lines. simpl. by destruct (negb _). Qed.

Lemma drain_stderr_last_n (lines l : list string) :
  drain_stderr lines (last_n 10 l) = last_n 10 (l ++ kept_lines lines).
Proof.
  revert l. induction lines as [|line rest IH]; intros l.
  - simpl. by rewrite app_nil_r.
  - simpl. rewrite kept_lines_cons.
    destruct (negb (String.eqb (Py.rstrip line) "")) eqn:Hl.
    + rewrite deque_append_last_n by lia. rewrite IH.
      by rewrite <- app_assoc.
    + apply IH.
Qed.

(** X15. [drain_stderr] leaves in the deque the last ten of the lines
    read from the child's stderr, stripped on the right and the empty ones
    left out, in the order read: never more than ten, never an empty
    line. *)
Theorem drain_stderr_keeps_last_ten (lines : list string) :
  drain_stderr lines [] = last_n 10 (kept_lines lines)
  ∧ (length (drain_stderr lines []) ≤ 10)%nat
  ∧ (length (drain_stderr lines []) = Nat.min 10 (length (kept_lines lines)))
  ∧ Forall (λ l, l ≠ "" ∧ ∃ line, line ∈ lines ∧ l = Py.rstrip line)
      (drain_stderr lines []).
Proof.
  assert (Heq : drain_stderr lines [] = last_n 10 (kept_lines lines))
    by apply (drain_stderr_last_n lines []).
  rewrite Heq. unfold last_n. rewrite length_drop.
  split_and!; [done|lia|lia|].
  apply Forall_forall. intros l Hl.
  apply (subseteq_drop _ _ l) in Hl.
  unfold kept_lines in Hl.
  apply list_elem_of_In, List.filter_In in Hl as [Hin Hne].
  apply list_elem_of_In, list_elem_of_fmap in Hin as (line & -> & Hline).
  split; [|eauto].
  apply negb_true_iff in Hne. by apply String.eqb_neq in Hne.
Qed.

(** ** The log *)

Lemma shown_snoc (cs : list LogCall) (c : LogCall) :
  shown (cs ++ [c]) =
    shown cs ++ (if full_only c then [] else [msg c +:+ newline]).
Proof.
  unfold shown. rewrite List.filter_app, fmap_app. simpl.
  by destruct (full_only c).
Qed.

Lemma shown_app (cs cs' : list LogCall) :
  shown (cs ++ cs') = shown cs ++ shown cs'.
Proof. unfold shown. by rewrite List.filter_app, fmap_app. Qed.

Lemma log_all_snoc (cs : list LogCall) (c : LogCall) (s : Logs) :
  log_all (cs ++ [c]) s = log c (log_all cs s).
Proof. unfold log_all. by rewrite foldl_app. Qed.

(** Before the log box exists, the messages go to the buffer. *)
Lemma log_all_buffered (cs : list LogCall) (s : Logs) :
  log_box s = None →
  log_box (log_all cs s) = None
  ∧ _ui_buffer (log_all cs s)
    = _ui_buffer s ++ (msg <$> List.filter (λ c, negb (full_only c)) cs)
  ∧ (Forall (λ c, ui_file_ok c = true) cs →
       LOG_UI_FILE (log_all cs s) = LOG_UI_FILE s ++ shown cs).
Proof.
  intros Hs. induction cs as [|c cs IH] using rev_ind.
  - simpl. rewrite !app_nil_r. done.
  - rewrite log_all_snoc, shown_snoc, List.filter_app, fmap_app.
    destruct IH as (Hb & Hbuf & Hf).
    unfold log. rewrite Hb. simpl.
    destruct (full_only c) eqn:Hfull; simpl.
    + rewrite Hbuf, !app_nil_r. split_and!; try done.
      intros [Hall _]%Forall_app. auto.
    + rewrite Hbuf, <- !app_assoc. split_and!; try done.
      intros [Hall Hc]%Forall_app. inversion Hc as [|? ? Hok _]; subst.
      rewrite Hok. simpl. rewrite (Hf Hall). by rewrite <- app_assoc.
Qed.

(** Once the log box exists, the messages go to it. *)
Lemma log_all_boxed (cs : list LogCall) (s : Logs) (box : list string) :
  log_box s = Some box →
  Forall (λ c, insert_ok c = true) cs →
  log_box (log_all cs s) = Some (box ++ shown cs)
  ∧ _ui_buffer (log_all cs s) = _ui_buffer s
  ∧ (Forall (λ c, ui_file_ok c = true) cs →
       LOG_UI_FILE (log_all cs s) = LOG_UI_FILE s ++ shown cs).
Proof.
  intros Hs. induction cs as [|c cs IH] using rev_ind; intros Hins.
  - simpl. rewrite !app_nil_r. done.
  - apply Forall_app in Hins as [Hins Hc]. inversion Hc as [|? ? Hok _]; subst.
    rewrite log_all_snoc, shown_snoc.
    destruct (IH Hins) as (Hb & Hbuf & Hf).
    unfold log. rewrite Hb, Hok. destruct (full_only c) eqn:Hfull; simpl.
    + rewrite !app_nil_r. split_and!; try done.
      intros [Hall _]%Forall_app. auto.
    + rewrite <- !app_assoc. split_and!; try done.
      intros [Hall Hc']%Forall_app. inversion Hc' as [|? ? Hok' _]; subst.
      rewrite Hok'. simpl. rewrite (Hf Hall). by rewrite <- app_assoc.
Qed.

Lemma open_log_box_all (s : Logs) :
  log_box (open_log_box (λ _, true) s)
  = Some ((λ m, m +:+ newline) <$> _ui_buffer s).
Proof.
  unfold open_log_box. simpl. f_equal.
  induction (_ui_buffer s) as [|m l IH] using rev_ind; [done|].
  by rewrite foldl_app, fmap_app, IH.
Qed.

(** X16. No message is lost or moved by the buffering: after the
    messages logged before the log box exists, the creation of the box and
    the messages logged afterwards, the box holds one line for each message
    not logged with [full_only], in the order of the calls, and the buffer
    is empty; the lines appended to the log file of the user interface are
    the same. *)
Theorem log_box_shows_every_message (before after : list LogCall) (s0 : Logs) :
  log_box s0 = None →
  _ui_buffer s0 = [] →
  Forall (λ c, insert_ok c = true) after →
  let s := log_all after (open_log_box (λ _, true) (log_all before s0)) in
  log_box s = Some (shown (before ++ after))
  ∧ _ui_buffer s = []
  ∧ (Forall (λ c, ui_file_ok c = true) (before ++ after) →
       LOG_UI_FILE s = LOG_UI_FILE s0 ++ shown (before ++ after)).
Proof.
  intros Hbox Hbuf Hins s.
  destruct (log_all_buffered before s0 Hbox) as (_ & Hb & Hf).
  rewrite Hbuf in Hb. simpl in Hb.
  pose proof (open_log_box_all (log_all before s0)) as Ho.
  rewrite Hb, <- list_fmap_compose in Ho. fold (shown before) in Ho.
  destruct (log_all_boxed after _ _ Ho Hins) as (Hb' & Hbuf' & Hf').
  unfold s. rewrite Hb', Hbuf', shown_app. split_and!; [done|done|].
  intros [H1 H2]%Forall_app. rewrite (Hf' H2). simpl. rewrite (Hf H1).
  by rewrite <- app_assoc.
Qed.

(** Two messages before the window exists, one of them for the full log
    only, and one message afterwards. *)
Lemma log_box_shows_every_message_witness :
  log_box
    (log_all [mkLogCall "ready" false "12:00:02" true true true]
       (open_log_box (λ _, true)
          (log_all [mkLogCall "starting" false "12:00:00" true true true;
                    mkLogCall "details" true "12:00:01" true true true]
             (mkLogs None [] [] []))))
  = Some ["starting" +:+ newline; "ready" +:+ newline].
Proof.
  apply (log_box_shows_every_message
           [mkLogCall "starting" false "12:00:00" true true true;
            mkLogCall "details" true "12:00:01" true true true]
           [mkLogCall "ready" false "12:00:02" true true true]
           (mkLogs None [] [] [])); [reflexivity|reflexivity|].
  repeat constructor.
Defined.

(** ** The numbers of the status line *)

Lemma py_max_lower (a b : Q) : (a <= py_max a b)%Q.
Proof.
  unfold py_max. destruct (Qlt_bool a b) eqn:H;
    rewrite ?Qlt_bool_true, ?Qlt_bool_false in H; lra.
Qed.

(** X17. The remaining time of the status line is negative exactly when
    ffmpeg reports a position after the probed duration; it is zero as long
    as the position is zero; otherwise it is the remaining duration divided
    by the speed so far, the elapsed time being taken as one millisecond at
    least. *)
Theorem eta_negative_iff (duration out_time since_start : Q) :
  let eta := eta_of duration out_time since_start in
  ((eta < 0)%Q ↔ (0 < out_time)%Q ∧ (duration < out_time)%Q)
  ∧ ((out_time <= 0)%Q → eta = 0%Q)
  ∧ ((0 < out_time)%Q →
       (eta * out_time
        == (duration - out_time) * py_max (1 # 1000) since_start)%Q).
Proof.
  unfold eta_of.
  pose proof (py_max_lower (1 # 1000) since_start) as He.
  set (elapsed := py_max (1 # 1000) since_start) in *.
  assert (Hpos : (0 < elapsed)%Q) by lra.
  destruct (Qlt_bool 0 out_time) eqn:Ho;
    rewrite ?Qlt_bool_true, ?Qlt_bool_false in Ho.
  - assert (Hs : (0 < out_time / elapsed)%Q).
    { apply Qlt_shift_div_l; lra. }
    pose proof Hs as Hs'. apply Qlt_bool_true in Hs'. rewrite Hs'.
    assert (Heq : ((duration - out_time) / (out_time / elapsed) * out_time
                   == (duration - out_time) * elapsed)%Q).
    { field. split; lra. }
    assert (Hes : ((duration - out_time) / (out_time / elapsed)
                   * (out_time / elapsed) == duration - out_time)%Q).
    { field. split; lra. }
    set (eta := ((duration - out_time) / (out_time / elapsed))%Q) in *.
    set (speed := (out_time / elapsed)%Q) in *.
    split_and!.
    + split.
      * intros Hneg. split; [done|]. nra.
      * intros [_ Hd]. nra.
    + lra.
    + intros _. exact Heq.
  - assert (Hz : Qlt_bool 0 0 = false) by reflexivity. rewrite Hz.
    split_and!; [|done|lra].
    split; [lra|]. intros [? _]. lra.
Qed.

(** X18. The speed shown on the status line is never negative, whatever
    the clock and the size of the output do; it is zero at the first
    measure, when the output file is missing or cannot be read, and when it
    has not grown since the last measure. *)
Theorem output_kbps_never_negative (st : Stat) (t : Q) (m : Meter) :
  let kbps := fst (output_kbps st t m) in
  (0 <= kbps)%Q
  ∧ (last_bytes m = None → kbps = 0%Q)
  ∧ (st = NoFile ∨ st = StatRaised →
       kbps = 0%Q ∧ snd (output_kbps st t m) = m)
  ∧ (∀ b lb, st = Size b → last_bytes m = Some lb → (b <= lb)%Z →
       (kbps == 0)%Q).
Proof.
  unfold output_kbps.
  destruct st as [| |b]; simpl; [split_and!; try done; lra..|].
  destruct (last_bytes m) as [lb|] eqn:Hlb; simpl;
    [|split_and!; try done; try lra; intros [|]; done].
  set (lt := match last_bytes_time m with
             | Some x => if Qeq_bool x 0 then t else x
             | None => t
             end).
  pose proof (py_max_lower (1 # 1000) (t - lt)) as Hdt.
  set (dt := py_max (1 # 1000) (t - lt)) in *.
  assert (Hlb0 : (if (lb =? 0)%Z then 0%Z else lb) = lb)
    by (destruct (Z.eqb_spec lb 0); congruence).
  rewrite Hlb0.
  assert (Hdb : (0 <= py_max_int 0 (b - lb))%Z)
    by (unfold py_max_int; destruct (Z.ltb_spec 0 (b - lb)); lia).
  split_and!.
  - apply Qle_shift_div_l; [lra|]. rewrite Qmult_0_l.
    apply Qle_shift_div_l; [lra|]. rewrite Qmult_0_l.
    change 0%Q with (inject_Z 0). by rewrite <- Zle_Qle.
  - done.
  - intros [|]; done.
  - intros b' lb' [= <-] [= <-] Hle.
    assert (Hz : py_max_int 0 (b - lb) = 0%Z)
      by (unfold py_max_int; destruct (Z.ltb_spec 0 (b - lb)); lia).
    rewrite Hz. field. lra.
Qed.

Lemma process_line_digits (d : Q) (val : string) :
  Py.isdigit val = true →
  process_line d ("out_time_ms=" +:+ val)
  = Some (progress_calls (percent (out_time_of val) d)).
Proof.
  intros Hd.
  assert (Hne : val ≠ "") by (by destruct val).
  assert (Hfix : Py.rstrip val = val).
  { apply rstrip_digits. by destruct val. }
  assert (Hstrip : Py.strip ("out_time_ms=" +:+ val) = "out_time_ms=" +:+ val).
  { unfold Py.strip.
    change (Py.lstrip ("out_time_ms=" +:+ val)) with ("out_time_ms=" +:+ val).
    by apply rstrip_fixed_app. }
  assert (Hsw : Py.startswith ("out_time_ms=" +:+ val) "out_time_ms" = true)
    by reflexivity.
  assert (Hae : Py.after_eq ("out_time_ms=" +:+ val) = Some val)
    by reflexivity.
  unfold process_line. rewrite Hstrip, Hsw, Hae. simpl.
  by rewrite (strip_digits _ Hd), Hd.
Qed.

(** X19. When ffmpeg reports a position after the probed duration, the
    percentage written on the status line is the raw one, above 100, while
    the progress bar stays at 100: only the bar is clamped. *)
Theorem status_text_is_not_clamped (d : Q) (val : string) (w : Widgets) :
  Py.isdigit val = true →
  (0 < d)%Q →
  (d < out_time_of val)%Q →
  ∃ pct,
    process_line d ("out_time_ms=" +:+ val) = Some (progress_calls pct)
    ∧ (100 < pct)%Q
    ∧ let w' := set_ui_state (Some (StProgress pct)) None None
                  (set_ui_state None (Some pct) None w) in
      progress_bar w' = 100%Q ∧ status_label w' = StProgress pct.
Proof.
  intros Hd Hpos Hlate. exists (percent (out_time_of val) d).
  split; [by apply process_line_digits|].
  assert (Hpct : (100 < percent (out_time_of val) d)%Q).
  { unfold percent. destruct (Qeq_bool d 0) eqn:Hz.
    - apply Qeq_bool_iff in Hz. lra.
    - set (o := out_time_of val) in *.
      assert (Hq : (1 < o / d)%Q) by (apply Qlt_shift_div_l; lra).
      lra. }
  split; [done|]. simpl. split; [|done].
  unfold py_max, py_min.
  assert (H1 : Qlt_bool (percent (out_time_of val) d) 100 = false)
    by (apply Qlt_bool_false; lra).
  by rewrite H1.
Qed.

(** A file of 120 seconds for which ffmpeg reports 130 seconds. *)
Lemma status_text_is_not_clamped_witness :
  ∃ pct,
    process_line 120 "out_time_ms=130000000" = Some (progress_calls pct)
    ∧ (100 < pct)%Q.
Proof.
  destruct (status_text_is_not_clamped 120 "130000000"
              (mkWidgets StIdle 0 "Pause")) as (pct & Hl & Hp & _);
    [reflexivity|reflexivity|reflexivity|].
  exists pct. split; [exact Hl|exact Hp].
Defined.

(** ** The probe, stream by stream *)

Lemma video_of_non_empty (stream : json) : video_of stream ≠ ∅.
Proof. unfold video_of. apply insert_non_empty. Qed.

Lemma scan_stream_dict (v0 : gmap string json) (a0 : json)
    (items : list (string * json)) :
  let stream := JObj items in
  scan_stream (v0, a0) stream =
    Some (if stream_type_is "video" stream && bool_decide (v0 = ∅)
          then (video_of stream, a0)
          else if stream_type_is "audio" stream && negb (Json.truthy a0)
          then (v0, stream_field stream "codec_name")
          else (v0, a0)).
Proof.
  unfold scan_stream, stream_type_is, video_of, stream_field. simpl.
  by repeat case_match.
Qed.

Lemma scan_streams_spec (streams : list json) (v0 : gmap string json)
    (a0 : json) :
  Forall (λ s, is_dict s = true) streams →
  ∃ v a,
    scan_streams (v0, a0) streams = Some (v, a)
    ∧ v = (if bool_decide (v0 = ∅) then first_video streams else v0)
    ∧ (if Json.truthy a0 then a = a0
       else match List.find names_audio streams with
            | Some s => a = stream_field s "codec_name"
            | None => Json.truthy a = false
            end).
Proof.
  intros Hd. revert v0 a0.
  induction Hd as [|stream rest Hs _ IH]; intros v0 a0.
  - exists v0, a0. simpl. split; [done|]. unfold first_video. simpl.
    split; [by case_bool_decide|]. by destruct (Json.truthy a0) eqn:Ha.
  - destruct stream as [| | | | |items]; try done.
    cbn [scan_streams]. rewrite scan_stream_dict. cbn [mbind option_bind].
    unfold first_video, names_audio. cbn [List.find].
    destruct (stream_type_is "video" (JObj items)) eqn:Hv.
    + assert (Ha : stream_type_is "audio" (JObj items) = false).
      { unfold stream_type_is in *. simpl in *.
        destruct (default JNull (Json.assoc items "codec_type")); try done.
        simpl in *. apply String.eqb_eq in Hv as ->. done. }
      rewrite Ha. cbn [andb].
      case_bool_decide as Hv0; cbn [andb].
      * destruct (IH (video_of (JObj items)) a0) as (v & a & -> & Hvid & Haud).
        exists v, a. split; [done|].
        rewrite bool_decide_eq_false_2 in Hvid by apply video_of_non_empty.
        split; [done|]. exact Haud.
      * destruct (IH v0 a0) as (v & a & -> & Hvid & Haud).
        exists v, a. split; [done|].
        rewrite bool_decide_eq_false_2 in Hvid by done. split; [done|].
        exact Haud.
    + cbn [andb].
      destruct (stream_type_is "audio" (JObj items)) eqn:Ha; cbn [andb].
      * destruct (Json.truthy a0) eqn:Ha0; cbn [negb].
        -- destruct (IH v0 a0) as (v & a & -> & Hvid & Haud).
           exists v, a. split; [done|]. split; [exact Hvid|].
           by rewrite Ha0 in Haud.
        -- destruct (IH v0 (stream_field (JObj items) "codec_name"))
             as (v & a & -> & Hvid & Haud).
           exists v, a. split; [done|]. split; [exact Hvid|].
           destruct (Json.truthy (stream_field (JObj items) "codec_name"));
             [done|exact Haud].
      * destruct (IH v0 a0) as (v & a & -> & Hvid & Haud).
        exists v, a. split; [done|]. split; [exact Hvid|]. exact Haud.
Qed.

(** X20. When ffprobe exits with code 0 and prints a duration and a list
    of streams that are objects, [get_file_info] returns that duration, the
    codec, profile and pixel format of the first video stream (an empty
    dict when there is none: later video streams are ignored), and as audio
    codec the name of the first audio stream that has one (a value that
    counts as false when there is none). *)
Theorem probe_reads_first_streams (P : Platform) (data fmt dv : json)
    (streams : list json) (d : Q) :
  Json.get data "format" (JObj []) = Some fmt →
  Json.get fmt "duration" (JNum 0) = Some dv →
  to_float P dv = Some d →
  Json.get data "streams" (JArr []) = Some (JArr streams) →
  Forall (λ s, is_dict s = true) streams →
  let info := get_file_info P (ProbeExited 0 (Some data)) in
  duration info = d
  ∧ video info = first_video streams
  ∧ match List.find names_audio streams with
    | Some s => audio info = stream_field s "codec_name"
    | None => Json.truthy (audio info) = false
    end.
Proof.
  intros Hf Hdv Hd Hs Hall info.
  destruct (scan_streams_spec streams ∅ (JStr "") Hall) as (v & a & Hscan & -> & Ha).
  unfold info, get_file_info, parse_file_info. simpl.
  rewrite Hf. simpl. rewrite Hdv. simpl. rewrite Hd. simpl. rewrite Hs. simpl.
  rewrite Hscan. simpl. done.
Qed.

(** The sample output of ffprobe: an h264 stream, then an mp3 stream. *)
Lemma probe_reads_first_streams_witness :
  let info := get_file_info Sample.platform
                (ProbeExited 0 (Some (Sample.probed "120.000000"))) in
  video info !! "codec_name" = Some (JStr "h264") ∧ audio info = JStr "mp3".
Proof.
  pose proof (probe_reads_first_streams Sample.platform
                (Sample.probed "120.000000")
                (JObj [("duration", JStr "120.000000")]) (JStr "120.000000")
                [JObj [("codec_name", JStr "h264"); ("profile", JStr "High");
                       ("codec_type", JStr "video"); ("pix_fmt", JStr "yuv420p")];
                 JObj [("codec_name", JStr "mp3"); ("codec_type", JStr "audio")]]
                _ eq_refl eq_refl eq_refl eq_refl
                ltac:(repeat constructor)) as (_ & Hv & Ha).
  split; [by rewrite Hv | exact Ha].
Defined.

(** ** The settings and the start-up notice *)

(** [save_settings] keeps the choice about the notice. *)
Lemma save_settings_notice (P : Platform) (vars : option (string * string))
    (w : WriteResult) (c : Config) :
  default (JBool true) (settings (save_settings P vars w c) !! "startup_notice")
  = default (JBool true) (settings c !! "startup_notice").
Proof.
  destruct w; simpl; try done.
  erewrite lookup_union_Some_l; [done|]. by simplify_map_eq.
Qed.

Lemma startup_notice_save (P : Platform) (vars : option (string * string))
    (w : WriteResult) (c : Config) (force_show : bool) :
  startup_notice force_show (save_settings P vars w c)
  = startup_notice force_show c.
Proof. unfold startup_notice. by rewrite save_settings_notice. Qed.

(** X21. Once the notice is closed with "Don't show this again" ticked,
    it is no longer displayed at start-up, in this session and, when the
    settings file could be written, in the next one, where the folder and
    the encoder saved are read back too; the information button still
    displays it; no later [save_settings] brings it back.  When the file
    cannot be opened the choice holds for this session only: the file is
    as it was. *)
Theorem dont_show_again_persists (P : Platform) (c : Config)
    (folder encoder : string) :
  let c1 := close_notice P (Some (folder, encoder)) Written true c in
  startup_notice false c1 = false
  ∧ startup_notice true c1 = true
  ∧ (∃ c2, next_session c1 = Some c2
           ∧ startup_notice false c2 = false
           ∧ startup_notice true c2 = true
           ∧ settings c2 !! "dir_out" = Some (JStr folder)
           ∧ settings c2 !! "encoder" = Some (JStr encoder))
  ∧ (∀ vars w, startup_notice false (save_settings P vars w c1) = false)
  ∧ (let c1' := close_notice P (Some (folder, encoder)) NotOpened true c in
     startup_notice false c1' = false ∧ CONFIG_FILE c1' = CONFIG_FILE c).
Proof.
  intros c1. unfold c1, close_notice. rewrite !startup_notice_save.
  split_and!.
  - unfold startup_notice. simpl. by rewrite lookup_insert_eq.
  - unfold startup_notice. simpl. by rewrite lookup_insert_eq.
  - unfold next_session, save_settings, startup_notice. simpl.
    rewrite !lookup_insert_eq. simpl.
    eexists. split; [reflexivity|]. simpl.
    split_and!; by simplify_map_eq.
  - intros vars w. rewrite !startup_notice_save.
    unfold startup_notice. simpl. by rewrite lookup_insert_eq.
  - unfold startup_notice. simpl. by rewrite lookup_insert_eq.
  - done.
Qed.
